(** * lvory desktop shell: preload bridge and window manager

    A shallow embedding of the three JavaScript modules of the shell:

    - [ipc-handlers.js], which only re-exports [setupIpcHandlers];
    - the preload script, which hands the sandboxed page an object of
      functions that talk to the privileged process through [ipcRenderer];
    - the window manager, which creates the main window and registers the
      window and [ipcMain] handlers.

    JavaScript functions become functions in a small state-and-exception
    monad.  The Electron and Node objects the code drives ([ipcRenderer],
    [BrowserWindow], [ipcMain]) are modelled by the state they are documented
    to keep: listener lists, window flags and sizes. *)

From Stdlib Require Import ZArith.
From stdpp Require Import gmap strings list fin_maps pretty.

Local Open Scope Z_scope.
Local Set Warnings "-register-all".

(** ** JavaScript values *)

(** Identity of a function object.  Functions made by the page and functions
    made by the preload script are different objects, whatever their code. *)
Inductive FunId :=
| PageFn (n : nat)
| BridgeFn (n : nat).

Global Instance FunId_eq_dec : EqDecision FunId.
Proof. solve_decision. Defined.

Inductive JsVal :=
| JUndefined
| JNull
| JBool (b : bool)
| JNum (z : Z)
| JStr (s : string)
| JFun (f : FunId)
| JObj (fields : list (string * JsVal)).

(** [if (v)]: the falsy values are undefined, null, false, 0 and the empty
    string. *)
Definition truthy (v : JsVal) : bool :=
  match v with
  | JUndefined | JNull => false
  | JBool b => b
  | JNum z => negb (z =? 0)
  | JStr s => negb (String.eqb s "")
  | JFun _ | JObj _ => true
  end.

(** The i-th actual argument of a call; a missing argument is undefined. *)
Definition arg (i : nat) (args : list JsVal) : JsVal :=
  nth i args JUndefined.

(** ** State and exceptions *)

Inductive Completion (A : Type) :=
| Normal (a : A)
| Throw (e : string).
Arguments Normal {A} a.
Arguments Throw {A} e.

Definition Js (S A : Type) : Type := S -> Completion A * S.

Definition ret {S A} (a : A) : Js S A := fun s => (Normal a, s).

Definition throw {S A} (e : string) : Js S A := fun s => (Throw e, s).

Definition bind {S A B} (m : Js S A) (k : A -> Js S B) : Js S B :=
  fun s =>
    match m s with
    | (Normal a, s') => k a s'
    | (Throw e, s') => (Throw e, s')
    end.

Definition get {S} : Js S S := fun s => (Normal s, s).

Definition modify {S} (f : S -> S) : Js S unit := fun s => (Normal tt, f s).

(** [try { m } catch (error) { h error }] *)
Definition try_catch {S A} (m : Js S A) (h : string -> Js S A) : Js S A :=
  fun s =>
    match m s with
    | (Normal a, s') => (Normal a, s')
    | (Throw e, s') => h e s'
    end.

Notation "x <- m ;; k" := (bind m (fun x => k))
  (at level 90, m at next level, right associativity).
Notation "m ;;; k" := (bind m (fun _ => k))
  (at level 90, right associativity).

(** State reached by running [m]. *)
Definition exec {S A} (m : Js S A) (s : S) : S := snd (m s).

(** ** The preload script *)

Module Preload.

(** Body of an arrow function the script registers as a listener. *)
Inductive Body :=
| ForwardPayload (callback : JsVal)   (* (event, x) => callback(x) *)
| ForwardNothing (callback : JsVal).  (* () => callback() *)

(** A listener is a function object: evaluating an arrow expression makes a
    new object each time, so it carries its own identity. *)
Record Listener := { fn_id : nat; fn_body : Body }.

Inductive IpcCall :=
| Send (channel : string) (args : list JsVal)
| Invoke (channel : string) (args : list JsVal)
| On (channel : string) (listener : Listener)
| RemoveListener (channel : string) (listener : JsVal).

Definition channel_of (c : IpcCall) : string :=
  match c with
  | Send ch _ | Invoke ch _ | On ch _ | RemoveListener ch _ => ch
  end.

(** The renderer process as the script sees it. *)
Record Renderer := {
  listeners : gmap string (list Listener);  (* ipcRenderer's listener lists *)
  next_fn : nat;                            (* identity of the next function the script makes *)
  ipc_log : list IpcCall;                   (* calls made on ipcRenderer, oldest first *)
  page_calls : list (FunId * list JsVal)    (* page functions called back, oldest first *)
}.

Definition initial : Renderer :=
  {| listeners := ∅; next_fn := 0%nat; ipc_log := []; page_calls := [] |}.

Definition log (c : IpcCall) : Js Renderer unit :=
  modify (fun r => {| listeners := listeners r; next_fn := next_fn r;
                      ipc_log := ipc_log r ++ [c]; page_calls := page_calls r |}).

(** Evaluate an arrow expression: a function object with a fresh identity. *)
Definition arrow (b : Body) : Js Renderer Listener :=
  fun r => (Normal {| fn_id := next_fn r; fn_body := b |},
            {| listeners := listeners r; next_fn := S (next_fn r);
               ipc_log := ipc_log r; page_calls := page_calls r |}).

Definition set_listeners (ch : string) (ls : list Listener) : Js Renderer unit :=
  modify (fun r => {| listeners := match ls with
                                   | [] => delete ch (listeners r)
                                   | _ => <[ch := ls]> (listeners r)
                                   end;
                      next_fn := next_fn r; ipc_log := ipc_log r;
                      page_calls := page_calls r |}).

Definition listeners_on (ch : string) (r : Renderer) : list Listener :=
  default [] (listeners r !! ch).

(** What a call on [ipcRenderer] or on the bridge gives back. *)
Inductive Ret :=
| RUndefined
| RPromise (channel : string)        (* the reply of the privileged process, later *)
| REmitter                           (* ipcRenderer itself *)
| RFunction (id : nat) (f : list JsVal -> Js Renderer Ret).

Module ipcRenderer.

Definition send (ch : string) (args : list JsVal) : Js Renderer Ret :=
  log (Send ch args) ;;; ret RUndefined.

Definition invoke (ch : string) (args : list JsVal) : Js Renderer Ret :=
  log (Invoke ch args) ;;; ret (RPromise ch).

(** EventEmitter.on: the listener goes to the end of the channel's list. *)
Definition on (ch : string) (l : Listener) : Js Renderer Ret :=
  log (On ch l) ;;;
  r <- get ;;
  set_listeners ch (listeners_on ch r ++ [l]) ;;;
  ret REmitter.

(** Drop the first listener that is the function object [f]. *)
Fixpoint remove_first (f : FunId) (ls : list Listener) : list Listener :=
  match ls with
  | [] => []
  | l :: ls' => if decide (f = BridgeFn (fn_id l)) then ls' else l :: remove_first f ls'
  end.

(** EventEmitter.removeListener: a listener that is not a function is a
    TypeError; otherwise the most recently added instance of that very
    function object is taken out, if there is one. *)
Definition removeListener (ch : string) (v : JsVal) : Js Renderer Ret :=
  log (RemoveListener ch v) ;;;
  match v with
  | JFun f =>
      r <- get ;;
      set_listeners ch (rev (remove_first f (rev (listeners_on ch r)))) ;;;
      ret REmitter
  | _ => throw "TypeError: The listener argument must be of type function"
  end.

End ipcRenderer.

(** Calling a value the page handed in. *)
Definition call_value (v : JsVal) (args : list JsVal) : Js Renderer unit :=
  match v with
  | JFun f =>
      modify (fun r => {| listeners := listeners r; next_fn := next_fn r;
                          ipc_log := ipc_log r;
                          page_calls := page_calls r ++ [(f, args)] |})
  | _ => throw "TypeError: callback is not a function"
  end.

Definition run_listener (l : Listener) (args : list JsVal) : Js Renderer unit :=
  match fn_body l with
  | ForwardPayload callback => call_value callback [arg 0 args]
  | ForwardNothing callback => call_value callback []
  end.

Fixpoint run_listeners (ls : list Listener) (args : list JsVal) : Js Renderer unit :=
  match ls with
  | [] => ret tt
  | l :: ls' => run_listener l args ;;; run_listeners ls' args
  end.

(** A message from the privileged process arrives on [ch]: the listeners
    registered at that moment run in order, each with the event object and
    the message's arguments. *)
Definition deliver (ch : string) (args : list JsVal) : Js Renderer unit :=
  r <- get ;;
  run_listeners (listeners_on ch r) args.

(** A function of the script that returns a closure. *)
Definition closure (f : list JsVal -> Js Renderer Ret) : Js Renderer Ret :=
  fun r => (Normal (RFunction (next_fn r) f),
            {| listeners := listeners r; next_fn := S (next_fn r);
               ipc_log := ipc_log r; page_calls := page_calls r |}).

End Preload.

(** ** The object handed to the page: [contextBridge.exposeInMainWorld('electron', {...})] *)

Module electron.
Import Preload.

Definition Fn : Type := list JsVal -> Js Renderer Ret.

Definition minimizeWindow : Fn := fun _ => ipcRenderer.send "window-minimize" [].
Definition maximizeWindow : Fn := fun _ => ipcRenderer.send "window-maximize" [].
Definition closeWindow : Fn := fun _ => ipcRenderer.send "window-close" [].

Definition showWindow : Fn := fun _ => ipcRenderer.invoke "show-window" [].
Definition quitApp : Fn := fun _ => ipcRenderer.invoke "quit-app" [].

Definition downloadProfile : Fn := fun args =>
  let data := arg 0 args in
  ipcRenderer.invoke "download-profile" [data].

Definition downloadCore : Fn := fun _ => ipcRenderer.invoke "download-core" [].

Definition onCoreDownloadProgress : Fn := fun args =>
  let callback := arg 0 args in
  l <- arrow (ForwardPayload callback) ;;
  ipcRenderer.on "core-download-progress" l ;;;
  closure (fun _ => ipcRenderer.removeListener "core-download-progress" callback).

Definition onStatusUpdate : Fn := fun args =>
  let callback := arg 0 args in
  l <- arrow (ForwardPayload callback) ;;
  ipcRenderer.on "status-update" l ;;;
  closure (fun _ => ipcRenderer.removeListener "status-update" callback).

Definition openConfigDir : Fn := fun _ => ipcRenderer.invoke "openConfigDir" [].

Module singbox.

Definition checkInstalled : Fn := fun _ => ipcRenderer.invoke "singbox-check-installed" [].
Definition getVersion : Fn := fun _ => ipcRenderer.invoke "singbox-get-version" [].
Definition checkConfig : Fn := fun args =>
  let configPath := arg 0 args in
  ipcRenderer.invoke "singbox-check-config" [JObj [("configPath", configPath)]].
Definition formatConfig : Fn := fun args =>
  let configPath := arg 0 args in
  ipcRenderer.invoke "singbox-format-config" [JObj [("configPath", configPath)]].
Definition startCore : Fn := fun args =>
  let options := arg 0 args in
  ipcRenderer.invoke "singbox-start-core" [options].
Definition stopCore : Fn := fun _ => ipcRenderer.invoke "singbox-stop-core" [].
Definition getStatus : Fn := fun _ => ipcRenderer.invoke "singbox-get-status" [].
Definition run : Fn := fun args =>
  let configPath := arg 0 args in
  ipcRenderer.invoke "singbox-run" [JObj [("configPath", configPath)]].
Definition stop : Fn := fun _ => ipcRenderer.invoke "singbox-stop" [].
Definition downloadCore : Fn := fun _ => ipcRenderer.invoke "singbox-download-core" [].

Definition onOutput : Fn := fun args =>
  let callback := arg 0 args in
  l <- arrow (ForwardPayload callback) ;;
  ipcRenderer.on "singbox-output" l ;;;
  closure (fun _ => ipcRenderer.removeListener "singbox-output" callback).

Definition onExit : Fn := fun args =>
  let callback := arg 0 args in
  l <- arrow (ForwardPayload callback) ;;
  ipcRenderer.on "singbox-exit" l ;;;
  closure (fun _ => ipcRenderer.removeListener "singbox-exit" callback).

End singbox.

Definition getSingBoxVersion : Fn := fun _ => ipcRenderer.invoke "singbox-get-version" [].

Definition onCoreVersionUpdate : Fn := fun args =>
  let callback := arg 0 args in
  l <- arrow (ForwardPayload callback) ;;
  ipcRenderer.on "core-version-update" l ;;;
  closure (fun _ => ipcRenderer.removeListener "core-version-update" callback).

Definition onDownloadComplete : Fn := fun args =>
  let callback := arg 0 args in
  l <- arrow (ForwardPayload callback) ;;
  ipcRenderer.on "download-complete" l.
Definition removeDownloadComplete : Fn := fun args =>
  let callback := arg 0 args in
  ipcRenderer.removeListener "download-complete" callback.

Definition getProfileData : Fn := fun _ => ipcRenderer.invoke "get-profile-data" [].

Definition onProfileData : Fn := fun args =>
  let callback := arg 0 args in
  l <- arrow (ForwardPayload callback) ;;
  ipcRenderer.on "profile-data" l.
Definition removeProfileData : Fn := fun args =>
  let callback := arg 0 args in
  ipcRenderer.removeListener "profile-data" callback.

Definition getProfileFiles : Fn := fun _ => ipcRenderer.invoke "getProfileFiles" [].

Definition exportProfile : Fn := fun args =>
  let fileName := arg 0 args in
  ipcRenderer.invoke "exportProfile" [fileName].

Definition renameProfile : Fn := fun args =>
  let data := arg 0 args in
  ipcRenderer.invoke "renameProfile" [data].

Definition deleteProfile : Fn := fun args =>
  let fileName := arg 0 args in
  ipcRenderer.invoke "deleteProfile" [fileName].

Definition openFileInEditor : Fn := fun args =>
  let fileName := arg 0 args in
  ipcRenderer.invoke "openFileInEditor" [fileName].

Definition openAddProfileDialog : Fn := fun _ =>
  ipcRenderer.send "open-add-profile-dialog" [].

Definition onProfilesChanged : Fn := fun args =>
  let callback := arg 0 args in
  ipcRenderer.send "profiles-changed-listen" [] ;;;
  l <- arrow (ForwardNothing callback) ;;
  ipcRenderer.on "profiles-changed" l ;;;
  closure (fun _ =>
    ipcRenderer.send "profiles-changed-unlisten" [] ;;;
    ipcRenderer.removeListener "profiles-changed" callback ;;;
    ret RUndefined).

Definition getConfigPath : Fn := fun _ => ipcRenderer.invoke "get-config-path" [].
Definition setConfigPath : Fn := fun args =>
  let filePath := arg 0 args in
  ipcRenderer.invoke "set-config-path" [filePath].

(** [platform: process.platform], a plain string, not a function. *)
Definition platform (process_platform : string) : JsVal := JStr process_platform.

Module logs.

Definition onLogMessage : Fn := fun args =>
  let callback := arg 0 args in
  l <- arrow (ForwardPayload callback) ;;
  ipcRenderer.on "log-message" l ;;;
  closure (fun _ => ipcRenderer.removeListener "log-message" callback).

Definition onActivityLog : Fn := fun args =>
  let callback := arg 0 args in
  l <- arrow (ForwardPayload callback) ;;
  ipcRenderer.on "activity-log" l ;;;
  closure (fun _ => ipcRenderer.removeListener "activity-log" callback).

Definition getLogHistory : Fn := fun _ => ipcRenderer.invoke "get-log-history" [].
Definition clearLogs : Fn := fun _ => ipcRenderer.invoke "clear-logs" [].

End logs.

(** Every function of the exposed object, by its path from [window.electron]. *)
Definition exposed : list (string * Fn) :=
  [ ("minimizeWindow", minimizeWindow);
    ("maximizeWindow", maximizeWindow);
    ("closeWindow", closeWindow);
    ("showWindow", showWindow);
    ("quitApp", quitApp);
    ("downloadProfile", downloadProfile);
    ("downloadCore", downloadCore);
    ("onCoreDownloadProgress", onCoreDownloadProgress);
    ("onStatusUpdate", onStatusUpdate);
    ("openConfigDir", openConfigDir);
    ("singbox.checkInstalled", singbox.checkInstalled);
    ("singbox.getVersion", singbox.getVersion);
    ("singbox.checkConfig", singbox.checkConfig);
    ("singbox.formatConfig", singbox.formatConfig);
    ("singbox.startCore", singbox.startCore);
    ("singbox.stopCore", singbox.stopCore);
    ("singbox.getStatus", singbox.getStatus);
    ("singbox.run", singbox.run);
    ("singbox.stop", singbox.stop);
    ("singbox.downloadCore", singbox.downloadCore);
    ("singbox.onOutput", singbox.onOutput);
    ("singbox.onExit", singbox.onExit);
    ("getSingBoxVersion", getSingBoxVersion);
    ("onCoreVersionUpdate", onCoreVersionUpdate);
    ("onDownloadComplete", onDownloadComplete);
    ("removeDownloadComplete", removeDownloadComplete);
    ("getProfileData", getProfileData);
    ("onProfileData", onProfileData);
    ("removeProfileData", removeProfileData);
    ("getProfileFiles", getProfileFiles);
    ("exportProfile", exportProfile);
    ("renameProfile", renameProfile);
    ("deleteProfile", deleteProfile);
    ("openFileInEditor", openFileInEditor);
    ("openAddProfileDialog", openAddProfileDialog);
    ("onProfilesChanged", onProfilesChanged);
    ("getConfigPath", getConfigPath);
    ("setConfigPath", setConfigPath);
    ("logs.onLogMessage", logs.onLogMessage);
    ("logs.onActivityLog", logs.onActivityLog);
    ("logs.getLogHistory", logs.getLogHistory);
    ("logs.clearLogs", logs.clearLogs) ].

(** The channel names written in the script, in source order. *)
Definition whitelist : list string :=
  [ "window-minimize"; "window-maximize"; "window-close";
    "show-window"; "quit-app"; "download-profile"; "download-core";
    "core-download-progress"; "status-update"; "openConfigDir";
    "singbox-check-installed"; "singbox-get-version"; "singbox-check-config";
    "singbox-format-config"; "singbox-start-core"; "singbox-stop-core";
    "singbox-get-status"; "singbox-run"; "singbox-stop"; "singbox-download-core";
    "singbox-output"; "singbox-exit"; "core-version-update";
    "download-complete"; "get-profile-data"; "profile-data";
    "getProfileFiles"; "exportProfile"; "renameProfile"; "deleteProfile";
    "openFileInEditor"; "open-add-profile-dialog";
    "profiles-changed-listen"; "profiles-changed"; "profiles-changed-unlisten";
    "get-config-path"; "set-config-path";
    "log-message"; "activity-log"; "get-log-history"; "clear-logs" ].

(** The subscription functions that hand back an unsubscriber, each with the
    channel it listens on. *)
Definition subscriptions : list (string * Fn) :=
  [ ("core-download-progress", onCoreDownloadProgress);
    ("status-update", onStatusUpdate);
    ("singbox-output", singbox.onOutput);
    ("singbox-exit", singbox.onExit);
    ("core-version-update", onCoreVersionUpdate);
    ("profiles-changed", onProfilesChanged);
    ("log-message", logs.onLogMessage);
    ("activity-log", logs.onActivityLog) ].

End electron.

(** The [ipcRenderer] calls a computation adds to the log. *)
Definition calls {A} (m : Js Preload.Renderer A) (r : Preload.Renderer) : list Preload.IpcCall :=
  drop (length (Preload.ipc_log r)) (Preload.ipc_log (exec m r)).

(** The page uses what a bridge function returned: only a function can be
    called, with any arguments. *)
Definition call_returned (v : Completion Preload.Ret) (args : list JsVal)
  : Js Preload.Renderer Preload.Ret :=
  match v with
  | Normal (Preload.RFunction _ f) => f args
  | Normal _ => throw "TypeError: not a function"
  | Throw e => throw e
  end.

(** Subscribe with [sub args], then call whatever came back with [args']. *)
Definition subscribe_then_call (sub : electron.Fn) (args args' : list JsVal)
  : Js Preload.Renderer Preload.Ret :=
  fun r => let '(v, r') := sub args r in call_returned v args' r'.

(** ** The window manager *)

Module Window.

(** Arguments of [path.join], kept as written. *)
Inductive Path :=
| DirnameJoin (parts : list string)       (* path.join(__dirname, ...) *)
| ResourcesJoin (parts : list string).    (* path.join(process.resourcesPath, ...) *)

Record WebPreferences := {
  nodeIntegration : bool;
  contextIsolation : bool;
  preload : Path;
  v8CacheOptions : string;
  backgroundThrottling : bool;
  enableBlinkFeatures : string;
  enablePreferredSizeMode : bool;
  spellcheck : bool;
  devTools : bool;
  webSecurity : bool
}.

Record Options := {
  width : Z;
  height : Z;
  minWidth : Z;
  minHeight : Z;
  webPreferences : WebPreferences;
  resizable : bool;
  frame : bool;
  titleBarStyle : string;
  show : bool
}.

(** What a [BrowserWindow] object keeps. *)
Record BrowserWindow := {
  options : Options;
  destroyed : bool;
  visible : bool;
  minimized : bool;
  maximized : bool;
  focused : bool;
  size : Z * Z;
  minimumSize : Z * Z;
  devToolsOpened : bool
}.

(** [new BrowserWindow(opts)] *)
Definition new_BrowserWindow (opts : Options) : BrowserWindow :=
  {| options := opts; destroyed := false; visible := show opts;
     minimized := false; maximized := false; focused := show opts;
     size := (width opts, height opts);
     minimumSize := (minWidth opts, minHeight opts);
     devToolsOpened := false |}.

(** The methods of a live window, by their documented effect on what the
    window keeps.  Where the window system picks a geometry (maximize,
    restore) the size is left alone; a change of size arrives as an event. *)
Module BW.

Definition minimize (w : BrowserWindow) : BrowserWindow :=
  {| options := options w; destroyed := destroyed w; visible := visible w;
     minimized := true; maximized := maximized w; focused := focused w;
     size := size w; minimumSize := minimumSize w; devToolsOpened := devToolsOpened w |}.

Definition restore (w : BrowserWindow) : BrowserWindow :=
  {| options := options w; destroyed := destroyed w; visible := visible w;
     minimized := false; maximized := maximized w; focused := focused w;
     size := size w; minimumSize := minimumSize w; devToolsOpened := devToolsOpened w |}.

Definition maximize (w : BrowserWindow) : BrowserWindow :=
  {| options := options w; destroyed := destroyed w; visible := true;
     minimized := minimized w; maximized := true; focused := focused w;
     size := size w; minimumSize := minimumSize w; devToolsOpened := devToolsOpened w |}.

Definition unmaximize (w : BrowserWindow) : BrowserWindow :=
  {| options := options w; destroyed := destroyed w; visible := visible w;
     minimized := minimized w; maximized := false; focused := focused w;
     size := size w; minimumSize := minimumSize w; devToolsOpened := devToolsOpened w |}.

Definition hide (w : BrowserWindow) : BrowserWindow :=
  {| options := options w; destroyed := destroyed w; visible := false;
     minimized := minimized w; maximized := maximized w; focused := false;
     size := size w; minimumSize := minimumSize w; devToolsOpened := devToolsOpened w |}.

Definition show (w : BrowserWindow) : BrowserWindow :=
  {| options := options w; destroyed := destroyed w; visible := true;
     minimized := minimized w; maximized := maximized w; focused := true;
     size := size w; minimumSize := minimumSize w; devToolsOpened := devToolsOpened w |}.

Definition focus (w : BrowserWindow) : BrowserWindow :=
  {| options := options w; destroyed := destroyed w; visible := visible w;
     minimized := minimized w; maximized := maximized w; focused := true;
     size := size w; minimumSize := minimumSize w; devToolsOpened := devToolsOpened w |}.

Definition setMinimumSize (mw mh : Z) (w : BrowserWindow) : BrowserWindow :=
  {| options := options w; destroyed := destroyed w; visible := visible w;
     minimized := minimized w; maximized := maximized w; focused := focused w;
     size := size w; minimumSize := (mw, mh); devToolsOpened := devToolsOpened w |}.

(** The window system puts the window at a size of its choosing. *)
Definition place (sw sh : Z) (w : BrowserWindow) : BrowserWindow :=
  {| options := options w; destroyed := destroyed w; visible := visible w;
     minimized := minimized w; maximized := maximized w; focused := focused w;
     size := (sw, sh); minimumSize := minimumSize w; devToolsOpened := devToolsOpened w |}.

(** [setSize]: a width or height below the minimum snaps to the minimum. *)
Definition setSize (sw sh : Z) (w : BrowserWindow) : BrowserWindow :=
  place (Z.max sw (fst (minimumSize w))) (Z.max sh (snd (minimumSize w))) w.

Definition setDevToolsOpened (b : bool) (w : BrowserWindow) : BrowserWindow :=
  {| options := options w; destroyed := destroyed w; visible := visible w;
     minimized := minimized w; maximized := maximized w; focused := focused w;
     size := size w; minimumSize := minimumSize w; devToolsOpened := b |}.

(** The window is closed for good. *)
Definition destroy (w : BrowserWindow) : BrowserWindow :=
  {| options := options w; destroyed := true; visible := false;
     minimized := minimized w; maximized := maximized w; focused := false;
     size := size w; minimumSize := minimumSize w; devToolsOpened := false |}.

End BW.

Abbreviation Headers := (gmap string (list string)).

(** The object a [webRequest] listener passes to its callback. *)
Record HeadersResponse := { responseHeaders : Headers }.

(** Calls that leave this module: the logger, the sing-box utility, the
    profile manager, the page loader, timers, messages to the page and the
    answer to an intercepted response. *)
Inductive Effect :=
| LoggerSetMainWindow
| SingboxSetMainWindow
| LoggerInfo (msg : string)
| LoggerError (msg : string)
| LoadURL (url : string)
| LoadFile (p : Path)
| SetTimeoutLoadAppContent (ms : Z)
| ScanProfileConfig
| WebContentsSend (channel : string) (data : JsVal)
| HeadersCallback (response : HeadersResponse).

(** The functions [createWindow] registers, named after the event or channel
    each is registered for. *)
Inductive Handler :=
| headers_received
| will_resize
| resize
| did_fail_load_logged
| did_fail_load
| did_finish_load
| window_minimize
| window_close
| window_maximize
| close
| before_input_event.

(** What the world outside answers while a handler runs. *)
Record World := {
  existsSync : Path -> bool;        (* fs.existsSync *)
  scanProfileConfig : JsVal         (* profileManager.scanProfileConfig() *)
}.

(** The main process as this module sees it. *)
Record Main := {
  isDev : bool;                                   (* const isDev *)
  mainWindow : option BrowserWindow;              (* let mainWindow; None is null *)
  isQuitting : JsVal;                             (* global.isQuitting *)
  world : World;
  defaultPrevented : bool;                        (* of the event being dispatched *)
  ipcMain_listeners : list (string * Handler);    (* ipcMain.on *)
  window_listeners : list (string * Handler);     (* mainWindow.on *)
  webContents_listeners : list (string * Handler);(* mainWindow.webContents.on *)
  headers_listener : option Handler;              (* webRequest.onHeadersReceived *)
  effects : list Effect                           (* oldest first *)
}.

(** The state right after the module is loaded:
    [const isDev = process.env.NODE_ENV === 'development'; let mainWindow = null]. *)
Definition load (NODE_ENV : option string) (quitting : JsVal) (wd : World) : Main :=
  {| isDev := match NODE_ENV with
              | Some v => String.eqb v "development"
              | None => false
              end;
     mainWindow := None;
     isQuitting := quitting;
     world := wd;
     defaultPrevented := false;
     ipcMain_listeners := [];
     window_listeners := [];
     webContents_listeners := [];
     headers_listener := None;
     effects := [] |}.

Definition set_mainWindow (w : option BrowserWindow) (m : Main) : Main :=
  {| isDev := isDev m; mainWindow := w; isQuitting := isQuitting m; world := world m;
     defaultPrevented := defaultPrevented m;
     ipcMain_listeners := ipcMain_listeners m; window_listeners := window_listeners m;
     webContents_listeners := webContents_listeners m;
     headers_listener := headers_listener m; effects := effects m |}.

Definition set_isQuitting (v : JsVal) (m : Main) : Main :=
  {| isDev := isDev m; mainWindow := mainWindow m; isQuitting := v; world := world m;
     defaultPrevented := defaultPrevented m;
     ipcMain_listeners := ipcMain_listeners m; window_listeners := window_listeners m;
     webContents_listeners := webContents_listeners m;
     headers_listener := headers_listener m; effects := effects m |}.

Definition set_world (wd : World) (m : Main) : Main :=
  {| isDev := isDev m; mainWindow := mainWindow m; isQuitting := isQuitting m; world := wd;
     defaultPrevented := defaultPrevented m;
     ipcMain_listeners := ipcMain_listeners m; window_listeners := window_listeners m;
     webContents_listeners := webContents_listeners m;
     headers_listener := headers_listener m; effects := effects m |}.

Definition set_defaultPrevented (b : bool) (m : Main) : Main :=
  {| isDev := isDev m; mainWindow := mainWindow m; isQuitting := isQuitting m; world := world m;
     defaultPrevented := b;
     ipcMain_listeners := ipcMain_listeners m; window_listeners := window_listeners m;
     webContents_listeners := webContents_listeners m;
     headers_listener := headers_listener m; effects := effects m |}.

Definition add_ipcMain_listener (ch : string) (h : Handler) (m : Main) : Main :=
  {| isDev := isDev m; mainWindow := mainWindow m; isQuitting := isQuitting m; world := world m;
     defaultPrevented := defaultPrevented m;
     ipcMain_listeners := ipcMain_listeners m ++ [(ch, h)];
     window_listeners := window_listeners m;
     webContents_listeners := webContents_listeners m;
     headers_listener := headers_listener m; effects := effects m |}.

Definition add_window_listener (ev : string) (h : Handler) (m : Main) : Main :=
  {| isDev := isDev m; mainWindow := mainWindow m; isQuitting := isQuitting m; world := world m;
     defaultPrevented := defaultPrevented m;
     ipcMain_listeners := ipcMain_listeners m;
     window_listeners := window_listeners m ++ [(ev, h)];
     webContents_listeners := webContents_listeners m;
     headers_listener := headers_listener m; effects := effects m |}.

Definition add_webContents_listener (ev : string) (h : Handler) (m : Main) : Main :=
  {| isDev := isDev m; mainWindow := mainWindow m; isQuitting := isQuitting m; world := world m;
     defaultPrevented := defaultPrevented m;
     ipcMain_listeners := ipcMain_listeners m;
     window_listeners := window_listeners m;
     webContents_listeners := webContents_listeners m ++ [(ev, h)];
     headers_listener := headers_listener m; effects := effects m |}.

Definition set_headers_listener (h : option Handler) (m : Main) : Main :=
  {| isDev := isDev m; mainWindow := mainWindow m; isQuitting := isQuitting m; world := world m;
     defaultPrevented := defaultPrevented m;
     ipcMain_listeners := ipcMain_listeners m; window_listeners := window_listeners m;
     webContents_listeners := webContents_listeners m;
     headers_listener := h; effects := effects m |}.

Definition add_effect (e : Effect) (m : Main) : Main :=
  {| isDev := isDev m; mainWindow := mainWindow m; isQuitting := isQuitting m; world := world m;
     defaultPrevented := defaultPrevented m;
     ipcMain_listeners := ipcMain_listeners m; window_listeners := window_listeners m;
     webContents_listeners := webContents_listeners m;
     headers_listener := headers_listener m; effects := effects m ++ [e] |}.

Definition effect (e : Effect) : Js Main unit := modify (add_effect e).

(** *** Methods of [mainWindow] *)

(** A method call on [mainWindow]: null has no methods, and the methods of a
    destroyed window throw. *)
Definition on_mainWindow {A} (f : BrowserWindow -> Js Main A) : Js Main A :=
  m <- get ;;
  match mainWindow m with
  | None => throw "TypeError: Cannot read properties of null"
  | Some w =>
      if destroyed w then throw "TypeError: Object has been destroyed" else f w
  end.

Definition update (f : BrowserWindow -> BrowserWindow) : Js Main unit :=
  on_mainWindow (fun w => modify (set_mainWindow (Some (f w)))).

Definition query {A} (f : BrowserWindow -> A) : Js Main A :=
  on_mainWindow (fun w => ret (f w)).

Module win.
Definition minimize : Js Main unit := update BW.minimize.
Definition maximize : Js Main unit := update BW.maximize.
Definition unmaximize : Js Main unit := update BW.unmaximize.
Definition restore : Js Main unit := update BW.restore.
Definition hide : Js Main unit := update BW.hide.
Definition show : Js Main unit := update BW.show.
Definition focus : Js Main unit := update BW.focus.
Definition isVisible : Js Main bool := query visible.
Definition isMinimized : Js Main bool := query minimized.
Definition isMaximized : Js Main bool := query maximized.
Definition getSize : Js Main (Z * Z) := query size.
Definition setSize (sw sh : Z) : Js Main unit := update (BW.setSize sw sh).
Definition setMinimumSize (mw mh : Z) : Js Main unit := update (BW.setMinimumSize mw mh).
Definition loadURL (url : string) : Js Main unit :=
  on_mainWindow (fun _ => effect (LoadURL url)).
Definition loadFile (p : Path) : Js Main unit :=
  on_mainWindow (fun _ => effect (LoadFile p)).
Module webContents.
Definition send (ch : string) (data : JsVal) : Js Main unit :=
  on_mainWindow (fun _ => effect (WebContentsSend ch data)).
Definition isDevToolsOpened : Js Main bool := query devToolsOpened.
Definition openDevTools : Js Main unit := update (BW.setDevToolsOpened true).
Definition closeDevTools : Js Main unit := update (BW.setDevToolsOpened false).
End webContents.
End win.

(** [mainWindow && !mainWindow.isDestroyed()] *)
Definition exists_and_not_destroyed (m : Main) : bool :=
  match mainWindow m with
  | Some w => negb (destroyed w)
  | None => false
  end.

(** [event.preventDefault()] *)
Definition preventDefault : Js Main unit := modify (set_defaultPrevented true).

(** *** loadAppContent *)

Definition indexPath : Path := DirnameJoin ["../../dist"; "index.html"].
Definition altPath : Path := ResourcesJoin ["app.asar"; "dist"; "index.html"].

Definition loadAppContent : Js Main unit :=
  m <- get ;;
  if isDev m then
    win.loadURL "http://localhost:3000"
  else
    try_catch
      (if existsSync (world m) indexPath then
         win.loadFile indexPath
       else if existsSync (world m) altPath then
         win.loadFile altPath
       else
         win.loadFile (DirnameJoin ["../../dist"; "index.html"]))
      (fun message =>
         effect (LoggerError ("加载HTML文件时出错: " +:+ message)) ;;;
         win.loadFile (DirnameJoin ["../../dist"; "index.html"])).

(** *** The registered functions *)

(** What a listener is called with, besides the event object. *)
Inductive Args :=
| NoArgs
| NewBounds (width height : Z)
| LoadFailure (errorCode : Z) (errorDescription : string)
| Input (key : string) (control : bool)
| Details (responseHeaders : option Headers).

Definition bad_arguments {A} : Js Main A :=
  throw "TypeError: Cannot read properties of undefined".

Definition csp_policy : list string :=
  ["script-src 'self' 'unsafe-inline' 'unsafe-eval'; style-src 'self' 'unsafe-inline'"].

(** [{ responseHeaders: { ...details.responseHeaders, 'Content-Security-Policy': [...] } }];
    spreading undefined adds nothing. *)
Definition csp_response (details_responseHeaders : option Headers) : HeadersResponse :=
  {| responseHeaders :=
       <["Content-Security-Policy" := csp_policy]> (default ∅ details_responseHeaders) |}.

Definition on_headers_received (a : Args) : Js Main JsVal :=
  match a with
  | Details rh => effect (HeadersCallback (csp_response rh)) ;;; ret JUndefined
  | _ => bad_arguments
  end.

Definition on_will_resize (a : Args) : Js Main JsVal :=
  match a with
  | NewBounds nw nh =>
      (if (nw <? 800) || (nh <? 600) then preventDefault else ret tt) ;;;
      ret JUndefined
  | _ => bad_arguments
  end.

Definition on_resize (_ : Args) : Js Main JsVal :=
  sz <- win.getSize ;;
  let '(w, h) := sz in
  (if (w <? 800) || (h <? 600) then win.setSize (Z.max w 800) (Z.max h 600) else ret tt) ;;;
  ret JUndefined.

Definition on_did_fail_load_logged (a : Args) : Js Main JsVal :=
  match a with
  | LoadFailure errorCode errorDescription =>
      effect (LoggerError ("页面加载失败: " +:+ pretty errorCode +:+ " - " +:+ errorDescription)) ;;;
      effect (SetTimeoutLoadAppContent 1000) ;;;
      ret JUndefined
  | _ => bad_arguments
  end.

Definition on_did_fail_load (_ : Args) : Js Main JsVal :=
  effect (SetTimeoutLoadAppContent 1000) ;;;
  ret JUndefined.

Definition on_did_finish_load (_ : Args) : Js Main JsVal :=
  effect (LoggerInfo "Page loaded successfully") ;;;
  v <- win.isVisible ;;
  (if negb v then win.show else ret tt) ;;;
  effect ScanProfileConfig ;;;
  m <- get ;;
  let profileData := scanProfileConfig (world m) in
  (if truthy profileData then win.webContents.send "profile-data" profileData else ret tt) ;;;
  ret JUndefined.

Definition on_window_minimize (_ : Args) : Js Main JsVal :=
  m <- get ;;
  (if exists_and_not_destroyed m then win.minimize else ret tt) ;;;
  ret JUndefined.

Definition on_window_close (_ : Args) : Js Main JsVal :=
  m <- get ;;
  (if exists_and_not_destroyed m then win.hide else ret tt) ;;;
  ret JUndefined.

Definition on_window_maximize (_ : Args) : Js Main JsVal :=
  m <- get ;;
  (if exists_and_not_destroyed m then
     b <- win.isMaximized ;;
     if b then win.unmaximize else win.maximize
   else ret tt) ;;;
  ret JUndefined.

Definition on_close (_ : Args) : Js Main JsVal :=
  m <- get ;;
  if negb (truthy (isQuitting m)) then
    preventDefault ;;;
    win.hide ;;;
    ret (JBool false)
  else
    ret (JBool true).

(** [input.key.toLowerCase() === 'i'] *)
Definition lower_is_i (key : string) : bool :=
  String.eqb key "i" || String.eqb key "I".

Definition on_before_input_event (a : Args) : Js Main JsVal :=
  match a with
  | Input key control =>
      (if String.eqb key "F12" || (control && lower_is_i key) then
         opened <- win.webContents.isDevToolsOpened ;;
         (if opened then win.webContents.closeDevTools else win.webContents.openDevTools) ;;;
         preventDefault
       else ret tt) ;;;
      ret JUndefined
  | _ => bad_arguments
  end.

Definition call_handler (h : Handler) : Args -> Js Main JsVal :=
  match h with
  | headers_received => on_headers_received
  | will_resize => on_will_resize
  | resize => on_resize
  | did_fail_load_logged => on_did_fail_load_logged
  | did_fail_load => on_did_fail_load
  | did_finish_load => on_did_finish_load
  | window_minimize => on_window_minimize
  | window_close => on_window_close
  | window_maximize => on_window_maximize
  | close => on_close
  | before_input_event => on_before_input_event
  end.

(** *** createWindow *)

Definition window_options : Options :=
  {| width := 1080;
     height := 780;
     minWidth := 800;
     minHeight := 600;
     webPreferences :=
       {| nodeIntegration := false;
          contextIsolation := true;
          preload := DirnameJoin ["../../preload.js"];
          v8CacheOptions := "code";
          backgroundThrottling := false;
          enableBlinkFeatures := "JSHeavyAdThrottling";
          enablePreferredSizeMode := true;
          spellcheck := false;
          devTools := true;
          webSecurity := true |};
     resizable := true;
     frame := false;
     titleBarStyle := "hidden";
     show := false |}.

Definition createWindow : Js Main (option BrowserWindow) :=
  modify (set_mainWindow (Some (new_BrowserWindow window_options))) ;;;
  effect LoggerSetMainWindow ;;;
  effect SingboxSetMainWindow ;;;
  m <- get ;;
  (if isDev m then
     on_mainWindow (fun _ => modify (set_headers_listener (Some headers_received)))
   else ret tt) ;;;
  win.setMinimumSize 800 600 ;;;
  on_mainWindow (fun _ => modify (add_window_listener "will-resize" will_resize)) ;;;
  on_mainWindow (fun _ => modify (add_window_listener "resize" resize)) ;;;
  on_mainWindow (fun _ => modify (add_webContents_listener "did-fail-load" did_fail_load_logged)) ;;;
  effect SingboxSetMainWindow ;;;
  on_mainWindow (fun _ => modify (add_webContents_listener "did-fail-load" did_fail_load)) ;;;
  on_mainWindow (fun _ => modify (add_webContents_listener "did-finish-load" did_finish_load)) ;;;
  loadAppContent ;;;
  modify (add_ipcMain_listener "window-minimize" window_minimize) ;;;
  modify (add_ipcMain_listener "window-close" window_close) ;;;
  modify (add_ipcMain_listener "window-maximize" window_maximize) ;;;
  on_mainWindow (fun _ => modify (add_window_listener "close" close)) ;;;
  on_mainWindow (fun _ => modify (add_webContents_listener "before-input-event" before_input_event)) ;;;
  m' <- get ;;
  ret (mainWindow m').

Definition getMainWindow : Js Main (option BrowserWindow) :=
  m <- get ;;
  ret (mainWindow m).

Definition showWindow : Js Main unit :=
  m <- get ;;
  match mainWindow m with
  | Some _ =>
      v <- win.isVisible ;;
      (if negb v then win.show else ret tt) ;;;
      mn <- win.isMinimized ;;
      (if mn then win.restore else ret tt) ;;;
      win.focus
  | None => ret tt
  end.

(** *** The runtime: what reaches the registered functions *)

Fixpoint registered (name : string) (reg : list (string * Handler)) : list Handler :=
  match reg with
  | [] => []
  | (n, h) :: reg' =>
      if String.eqb n name then h :: registered name reg' else registered name reg'
  end.

(** EventEmitter.emit: the listeners run in the order they were added; one
    that throws ends the run. *)
Fixpoint emit (hs : list Handler) (a : Args) : Js Main unit :=
  match hs with
  | [] => ret tt
  | h :: hs' => call_handler h a ;;; emit hs' a
  end.

Inductive Event :=
| IpcMessage (channel : string)      (* the page sent a message to ipcMain *)
| CloseRequested                     (* the window is asked to close *)
| WillResize (width height : Z)      (* the user drags the frame to a new size *)
| Resized (width height : Z)         (* the window system resized the window *)
| DidFinishLoad
| DidFailLoad (errorCode : Z) (errorDescription : string)
| BeforeInput (key : string) (control : bool)
| HeadersReceived (responseHeaders : option Headers)
| TimerFired                         (* a pending setTimeout(() => loadAppContent()) *)
| AssignIsQuitting (v : JsVal)       (* another module writes global.isQuitting *)
| WorldChanged (wd : World).

(** Dispatch one event to a live window's listeners; a window that is gone
    emits nothing. *)
Definition window_event (k : Js Main unit) : Js Main unit :=
  m <- get ;;
  if exists_and_not_destroyed m then
    modify (set_defaultPrevented false) ;;; k
  else ret tt.

Definition dispatch (e : Event) : Js Main unit :=
  match e with
  | IpcMessage ch =>
      m <- get ;;
      emit (registered ch (ipcMain_listeners m)) NoArgs
  | CloseRequested =>
      window_event (
        m <- get ;;
        try_catch (emit (registered "close" (window_listeners m)) NoArgs) (fun _ => ret tt) ;;;
        m' <- get ;;
        if defaultPrevented m' then ret tt else update BW.destroy)
  | WillResize nw nh =>
      window_event (
        m <- get ;;
        try_catch (emit (registered "will-resize" (window_listeners m)) (NewBounds nw nh))
                  (fun _ => ret tt) ;;;
        m' <- get ;;
        if defaultPrevented m' then ret tt
        else update (BW.place nw nh) ;;;
             emit (registered "resize" (window_listeners m')) NoArgs)
  | Resized nw nh =>
      window_event (
        update (BW.place nw nh) ;;;
        m <- get ;;
        emit (registered "resize" (window_listeners m)) NoArgs)
  | DidFinishLoad =>
      window_event (
        m <- get ;;
        emit (registered "did-finish-load" (webContents_listeners m)) NoArgs)
  | DidFailLoad code desc =>
      window_event (
        m <- get ;;
        emit (registered "did-fail-load" (webContents_listeners m)) (LoadFailure code desc))
  | BeforeInput key control =>
      window_event (
        m <- get ;;
        emit (registered "before-input-event" (webContents_listeners m)) (Input key control))
  | HeadersReceived rh =>
      m <- get ;;
      match headers_listener m with
      | Some h => call_handler h (Details rh) ;;; ret tt
      | None => ret tt
      end
  | TimerFired => loadAppContent
  | AssignIsQuitting v => modify (set_isQuitting v)
  | WorldChanged wd => modify (set_world wd)
  end.

Definition step (e : Event) (m : Main) : Main := exec (dispatch e) m.

Definition run (es : list Event) (m : Main) : Main := foldl (fun s e => step e s) m es.

End Window.

(** ** Vocabulary of the statements *)

(** A computation keeps a property of the main process, whether it returns
    or throws. *)
Definition Keeps {A} (I : Window.Main -> Prop) (c : Js Window.Main A) : Prop :=
  forall m, I m -> I (exec c m).

(** The listeners one run of [createWindow] registers, in order. *)
Definition wired_ipcMain : list (string * Window.Handler) :=
  [ ("window-minimize", Window.window_minimize);
    ("window-close", Window.window_close);
    ("window-maximize", Window.window_maximize) ].

Definition wired_window : list (string * Window.Handler) :=
  [ ("will-resize", Window.will_resize);
    ("resize", Window.resize);
    ("close", Window.close) ].

Definition wired_webContents : list (string * Window.Handler) :=
  [ ("did-fail-load", Window.did_fail_load_logged);
    ("did-fail-load", Window.did_fail_load);
    ("did-finish-load", Window.did_finish_load);
    ("before-input-event", Window.before_input_event) ].

(** The main process after [createWindow] has run once. *)
Record created (m : Window.Main) : Prop := {
  created_ipcMain : Window.ipcMain_listeners m = wired_ipcMain;
  created_window : Window.window_listeners m = wired_window;
  created_webContents : Window.webContents_listeners m = wired_webContents;
  created_headers :
    Window.headers_listener m =
    if Window.isDev m then Some Window.headers_received else None
}.

(** Two states with the same registered listeners. *)
Definition same_wiring (m m' : Window.Main) : Prop :=
  Window.isDev m' = Window.isDev m /\
  Window.ipcMain_listeners m' = Window.ipcMain_listeners m /\
  Window.window_listeners m' = Window.window_listeners m /\
  Window.webContents_listeners m' = Window.webContents_listeners m /\
  Window.headers_listener m' = Window.headers_listener m.

(** The main window exists and has not been destroyed. *)
Definition alive (m : Window.Main) : Prop :=
  exists w, Window.mainWindow m = Some w /\ Window.destroyed w = false.

Definition stays_open (m : Window.Main) : Prop :=
  created m /\ alive m /\ truthy (Window.isQuitting m) = false.

Definition large_enough (m : Window.Main) : Prop :=
  created m /\
  exists w, Window.mainWindow m = Some w /\
            800 <= fst (Window.size w) /\ 600 <= snd (Window.size w).

(** An event that does not make [global.isQuitting] truthy. *)
Definition quiet (e : Window.Event) : bool :=
  match e with
  | Window.AssignIsQuitting v => negb (truthy v)
  | _ => true
  end.

(** The effects a step added. *)
Definition new_effects (m m' : Window.Main) : list Window.Effect :=
  drop (length (Window.effects m)) (Window.effects m').

(** A window method that leaves liveness and size alone. *)
Definition gentle (f : Window.BrowserWindow -> Window.BrowserWindow) : Prop :=
  forall w, Window.destroyed (f w) = Window.destroyed w /\ Window.size (f w) = Window.size w.

(** The page [loadAppContent] asks the window to load. *)
Definition page_load (dev : bool) (wd : Window.World) : Window.Effect :=
  if dev then Window.LoadURL "http://localhost:3000"
  else if Window.existsSync wd Window.indexPath then Window.LoadFile Window.indexPath
  else if Window.existsSync wd Window.altPath then Window.LoadFile Window.altPath
  else Window.LoadFile Window.indexPath.

(** A world for examples: the packaged page exists, and the profile manager
    finds one profile. *)
Definition sample_world : Window.World :=
  {| Window.existsSync := fun _ => true;
     Window.scanProfileConfig := JObj [("name", JStr "default")] |}.

(** The main process of a production build right after [createWindow]. *)
Definition sample_main : Window.Main :=
  exec Window.createWindow (Window.load None (JBool false) sample_world).

(** The window [createWindow] makes, with its minimum size applied. *)
Definition sample_window : Window.BrowserWindow :=
  Window.BW.setMinimumSize 800 600 (Window.new_BrowserWindow Window.window_options).

(** The functions of the bridge that register a listener, each with its
    channel: the eight that hand back an unsubscriber and the two whose
    listener is meant to be taken off by a remove function. *)
Definition listening : list (string * electron.Fn) :=
  electron.subscriptions
  ++ [ ("download-complete", electron.onDownloadComplete);
       ("profile-data", electron.onProfileData) ].

(** A value the page can make: anything but a function object of the
    preload script. *)
Definition page_value (v : JsVal) : bool :=
  match v with
  | JFun (BridgeFn _) => false
  | _ => true
  end.

Definition is_function (v : JsVal) : bool :=
  match v with
  | JFun _ => true
  | _ => false
  end.

(** Subscribe [cb] through [sub] and call the unsubscriber, [n] times over. *)
Fixpoint subscribe_times (sub : electron.Fn) (cb : JsVal) (n : nat)
    (r : Preload.Renderer) : Preload.Renderer :=
  match n with
  | O => r
  | S k => exec (subscribe_then_call sub [cb] []) (subscribe_times sub cb k r)
  end.

(** What the arrow function registered on [ch] passes to [cb]'s call. *)
Definition wrapper_body (ch : string) (cb : JsVal) : Preload.Body :=
  if String.eqb ch "profiles-changed"
  then Preload.ForwardNothing cb
  else Preload.ForwardPayload cb.

(** The sample main process once another module has set [global.isQuitting]. *)
Definition sample_quitting : Window.Main :=
  Window.set_isQuitting (JBool true) sample_main.


(** The module before [createWindow] was ever called, in a production build. *)
Definition sample_unopened : Window.Main :=
  Window.load None (JBool false) sample_world.

(** * Theorems *)

(** ** The preload bridge *)

Create HintDb bridge.
#[local] Hint Unfold
  electron.minimizeWindow electron.maximizeWindow electron.closeWindow
  electron.showWindow electron.quitApp electron.downloadProfile electron.downloadCore
  electron.onCoreDownloadProgress electron.onStatusUpdate electron.openConfigDir
  electron.singbox.checkInstalled electron.singbox.getVersion electron.singbox.checkConfig
  electron.singbox.formatConfig electron.singbox.startCore electron.singbox.stopCore
  electron.singbox.getStatus electron.singbox.run electron.singbox.stop
  electron.singbox.downloadCore electron.singbox.onOutput electron.singbox.onExit
  electron.getSingBoxVersion electron.onCoreVersionUpdate electron.onDownloadComplete
  electron.removeDownloadComplete electron.getProfileData electron.onProfileData
  electron.removeProfileData electron.getProfileFiles electron.exportProfile
  electron.renameProfile electron.deleteProfile electron.openFileInEditor
  electron.openAddProfileDialog electron.onProfilesChanged electron.getConfigPath
  electron.setConfigPath electron.logs.onLogMessage electron.logs.onActivityLog
  electron.logs.getLogHistory electron.logs.clearLogs : bridge.

Section Bridge.
Import Preload.

Ltac run_bridge :=
  unfold calls, subscribe_then_call, call_returned, exec;
  autounfold with bridge;
  cbv [ipcRenderer.send ipcRenderer.invoke ipcRenderer.on ipcRenderer.removeListener
       log arrow closure set_listeners bind ret throw get modify fst snd
       ipc_log next_fn listeners page_calls].

Ltac read_log :=
  cbn [ipc_log fst snd]; rewrite <- ?app_assoc; rewrite ?drop_app_length, ?drop_all;
  cbn [map app channel_of].

Ltac by_argument :=
  match goal with |- context [arg 0 ?a] => destruct (arg 0 a) end.

Ltac channels :=
  intros; run_bridge;
  first [ progress read_log; reflexivity | by_argument; read_log; reflexivity ].

Ltac whitelisted :=
  repeat constructor; apply bool_decide_unpack; vm_compute; reflexivity.

(** C1.  Every function of the exposed object, called with any arguments in
    any renderer state, talks to [ipcRenderer] on a fixed list of channels
    that does not depend on the arguments; so does whatever function it
    returns; and every one of those channels is a name written in the
    script. *)
Theorem bridge_channels_whitelisted :
  Forall (fun entry : string * electron.Fn =>
    exists chans chans' : list string,
      (forall args r,
         map channel_of (calls (entry.2 args) r) = chans) /\
      (forall args args' r,
         map channel_of (calls (subscribe_then_call entry.2 args args') r)
         = chans ++ chans') /\
      Forall (fun ch => ch ∈ electron.whitelist) (chans ++ chans'))
    electron.exposed.
Proof.
  unfold electron.exposed.
  repeat apply List.Forall_cons; try apply List.Forall_nil;
    (do 2 eexists; split; [ channels | split; [ channels | ] ]).
  all: cbn [app fst snd]; whitelisted.
Qed.

Ltac relayed := intros; run_bridge; read_log; reflexivity.

(** C2.  Each sing-box lifecycle operation has a bridge function that relays
    it on a channel of its own: the functions of [singbox] invoke, or
    subscribe to, the ten channels below, which are pairwise different. *)
Theorem singbox_lifecycle_channels :
  (forall args r, calls (electron.singbox.checkInstalled args) r
                  = [Invoke "singbox-check-installed" []]) /\
  (forall args r, calls (electron.singbox.getVersion args) r
                  = [Invoke "singbox-get-version" []]) /\
  (forall args r, calls (electron.singbox.checkConfig args) r
                  = [Invoke "singbox-check-config" [JObj [("configPath", arg 0 args)]]]) /\
  (forall args r, calls (electron.singbox.formatConfig args) r
                  = [Invoke "singbox-format-config" [JObj [("configPath", arg 0 args)]]]) /\
  (forall args r, calls (electron.singbox.startCore args) r
                  = [Invoke "singbox-start-core" [arg 0 args]]) /\
  (forall args r, calls (electron.singbox.stopCore args) r
                  = [Invoke "singbox-stop-core" []]) /\
  (forall args r, calls (electron.singbox.getStatus args) r
                  = [Invoke "singbox-get-status" []]) /\
  (forall args r, calls (electron.singbox.downloadCore args) r
                  = [Invoke "singbox-download-core" []]) /\
  (forall args r, calls (electron.singbox.onOutput args) r
                  = [On "singbox-output"
                        {| fn_id := next_fn r; fn_body := ForwardPayload (arg 0 args) |}]) /\
  (forall args r, calls (electron.singbox.onExit args) r
                  = [On "singbox-exit"
                        {| fn_id := next_fn r; fn_body := ForwardPayload (arg 0 args) |}]) /\
  NoDup [ "singbox-check-installed"; "singbox-get-version"; "singbox-check-config";
          "singbox-format-config"; "singbox-start-core"; "singbox-stop-core";
          "singbox-get-status"; "singbox-download-core"; "singbox-output";
          "singbox-exit" ].
Proof.
  repeat split; try relayed.
  apply (@bool_decide_unpack _ (NoDup_dec _)). vm_compute. reflexivity.
Qed.

(** The profile functions of the bridge and what each tells [ipcRenderer]. *)
Lemma profile_functions_relay :
  (forall args r, calls (electron.renameProfile args) r
                  = [Invoke "renameProfile" [arg 0 args]]) /\
  (forall args r, calls (electron.deleteProfile args) r
                  = [Invoke "deleteProfile" [arg 0 args]]) /\
  (forall args r, calls (electron.exportProfile args) r
                  = [Invoke "exportProfile" [arg 0 args]]) /\
  (forall args r, calls (electron.onProfilesChanged args) r
                  = [ Send "profiles-changed-listen" [];
                      On "profiles-changed"
                         {| fn_id := next_fn r; fn_body := ForwardNothing (arg 0 args) |} ]) /\
  (forall args args' r,
      calls (subscribe_then_call electron.onProfilesChanged args args') r
      = [ Send "profiles-changed-listen" [];
          On "profiles-changed"
             {| fn_id := next_fn r; fn_body := ForwardNothing (arg 0 args) |};
          Send "profiles-changed-unlisten" [];
          RemoveListener "profiles-changed" (arg 0 args) ]).
Proof.
  repeat split; try relayed.
  intros; run_bridge; destruct (arg 0 args); read_log; reflexivity.
Qed.

(** What [set_listeners] stores under a channel is what is read back. *)
Lemma stored_listeners (ch : string) (ls : list Listener)
    (m : gmap string (list Listener)) :
  default [] (match ls with
              | [] => delete ch m
              | _ => <[ch := ls]> m
              end !! ch) = ls.
Proof.
  destruct ls as [| l ls].
  - by rewrite lookup_delete_eq.
  - by rewrite lookup_insert_eq.
Qed.

(** No listener is a function of the page: the script registers only arrow
    functions of its own. *)
Lemma remove_first_page (n : nat) (ls : list Listener) :
  ipcRenderer.remove_first (PageFn n) ls = ls.
Proof.
  induction ls as [| l ls IH]; cbn [ipcRenderer.remove_first]; [ reflexivity | ].
  destruct (decide (PageFn n = BridgeFn (fn_id l))) as [E | _]; [ discriminate E | ].
  by rewrite IH.
Qed.

Ltac run_subscription :=
  unfold calls, subscribe_then_call, call_returned, deliver, exec;
  autounfold with bridge;
  cbv [ipcRenderer.send ipcRenderer.invoke ipcRenderer.on ipcRenderer.removeListener
       log arrow closure set_listeners bind ret throw get modify arg nth];
  cbn [fst snd ipc_log next_fn listeners page_calls].

Ltac read_listeners :=
  unfold listeners_on; cbn [listeners fst snd];
  repeat (rewrite ?stored_listeners, ?remove_first_page, ?rev_involutive, ?lookup_empty;
          cbn [listeners fst snd default app]).

(** C9, as the code behaves.  Subscribe a function of the page through any of
    the eight subscription functions and call the unsubscriber that came
    back: the arrow function the subscription registered is still on the
    channel, after the listeners that were there before; and, starting from
    a renderer with no listeners, a message that then arrives on the channel
    still calls the page's function. *)
Theorem unsubscribe_keeps_the_wrapper :
  Forall (fun sub : string * electron.Fn =>
    forall (n : nat) (args' : list JsVal),
      (forall r,
         exists body,
           listeners_on sub.1 (exec (subscribe_then_call sub.2 [JFun (PageFn n)] args') r)
           = listeners_on sub.1 r
             ++ [{| fn_id := next_fn r; fn_body := body |}]) /\
      (forall payload,
         exists passed,
           page_calls (exec (deliver sub.1 [payload])
                         (exec (subscribe_then_call sub.2 [JFun (PageFn n)] args') initial))
           = [(PageFn n, passed)]))
    electron.subscriptions.
Proof.
  unfold electron.subscriptions.
  repeat apply List.Forall_cons; try apply List.Forall_nil; intros n args'; split.
  all: cbn [fst snd].
  all: intros x; eexists; unfold initial; run_subscription; read_listeners; reflexivity.
Qed.

(** ** Further properties of the bridge *)

(** Reading any channel after [set_listeners]. *)
Lemma stored_listeners_at (ch ch' : string) (ls : list Listener)
    (m : gmap string (list Listener)) :
  default [] (match ls with
              | [] => delete ch m
              | _ => <[ch := ls]> m
              end !! ch')
  = if decide (ch = ch') then ls else default [] (m !! ch').
Proof.
  destruct (decide (ch = ch')) as [<- | Hne]; [ apply stored_listeners | ].
  destruct ls as [| l ls].
  - by rewrite lookup_delete_ne.
  - by rewrite lookup_insert_ne.
Qed.

Ltac read_channel :=
  unfold listeners_on; cbn [listeners fst snd];
  repeat (rewrite ?stored_listeners, ?stored_listeners_at, ?remove_first_page,
                  ?rev_involutive;
          cbn [listeners fst snd]).

Ltac grown :=
  repeat case_decide; subst;
  first [ reflexivity | by apply prefix_app_r | by (etrans; [ | apply prefix_app_r ]) ].

(** X1.  Nothing the page can call takes a listener off: call any function
    of the bridge with values of the page's own, then call what came back;
    on every channel the listeners that were there are still there, in
    order, at the front of the list. *)
Theorem listeners_only_grow :
  Forall (fun entry : string * electron.Fn =>
    forall (args args' : list JsVal) (r : Renderer) (ch : string),
      page_value (arg 0 args) = true ->
      listeners_on ch r `prefix_of` listeners_on ch (exec (entry.2 args) r) /\
      listeners_on ch r
        `prefix_of` listeners_on ch (exec (subscribe_then_call entry.2 args args') r))
    electron.exposed.
Proof.
  unfold electron.exposed.
  repeat apply List.Forall_cons; try apply List.Forall_nil;
    intros args args' r ch Hv; cbn [fst snd];
    unfold subscribe_then_call, call_returned, exec; autounfold with bridge;
    cbv [ipcRenderer.send ipcRenderer.invoke ipcRenderer.on ipcRenderer.removeListener
         log arrow closure set_listeners bind ret throw get modify];
    cbn [fst snd ipc_log next_fn listeners page_calls];
    try (split; read_channel; grown; fail).
  all: destruct (arg 0 args) as [ | | | | | [n | n] | ]; try discriminate Hv.
  all: split; read_channel; grown.
Qed.

Lemma listeners_only_grow_witness :
  page_value (arg 0 [JFun (PageFn 7)]) = true /\
  listeners_on "log-message" initial
    `prefix_of` listeners_on "log-message"
                  (exec (subscribe_then_call electron.logs.onLogMessage
                           [JFun (PageFn 7)] []) initial).
Proof.
  split; [ reflexivity | ].
  pose proof listeners_only_grow as H. unfold electron.exposed in H.
  do 38 apply Forall_inv_tail in H. apply Forall_inv in H.
  apply (H [JFun (PageFn 7)] [] initial "log-message" eq_refl).
Defined.

(** X2.  [removeDownloadComplete] and [removeProfileData] do not undo
    [onDownloadComplete] and [onProfileData]: register a function of the
    page, then remove that same function, and the arrow function that was
    registered is still the last listener of the channel; starting with no
    listeners, the next message still reaches the page's function. *)
Theorem remove_functions_leave_the_listener (n : nat) :
  (forall r,
      listeners_on "download-complete"
        (exec (electron.removeDownloadComplete [JFun (PageFn n)])
           (exec (electron.onDownloadComplete [JFun (PageFn n)]) r))
      = listeners_on "download-complete" r
        ++ [{| fn_id := next_fn r; fn_body := ForwardPayload (JFun (PageFn n)) |}]) /\
  (forall r,
      listeners_on "profile-data"
        (exec (electron.removeProfileData [JFun (PageFn n)])
           (exec (electron.onProfileData [JFun (PageFn n)]) r))
      = listeners_on "profile-data" r
        ++ [{| fn_id := next_fn r; fn_body := ForwardPayload (JFun (PageFn n)) |}]) /\
  (forall data,
      page_calls
        (exec (deliver "download-complete" [data])
           (exec (electron.removeDownloadComplete [JFun (PageFn n)])
              (exec (electron.onDownloadComplete [JFun (PageFn n)]) initial)))
      = [(PageFn n, [data])]) /\
  (forall data,
      page_calls
        (exec (deliver "profile-data" [data])
           (exec (electron.removeProfileData [JFun (PageFn n)])
              (exec (electron.onProfileData [JFun (PageFn n)]) initial)))
      = [(PageFn n, [data])]).
Proof.
  repeat split; intros x; unfold initial; run_subscription; read_listeners; reflexivity.
Qed.

(** What running a list of listeners does to the page depends only on the
    calls recorded so far. *)
Lemma run_listeners_page (ls : list Listener) (args : list JsVal) (r r' : Renderer) :
  page_calls r = page_calls r' ->
  fst (run_listeners ls args r) = fst (run_listeners ls args r') /\
  page_calls (snd (run_listeners ls args r)) = page_calls (snd (run_listeners ls args r')).
Proof.
  revert r r'. induction ls as [| l ls IH]; intros r r' Hp; [ by split | ].
  cbn [run_listeners]. unfold bind, run_listener.
  destruct (fn_body l) as [cb | cb]; destruct cb as [ | | | | | f | ];
    cbn; try (by split); apply IH; cbn; by rewrite Hp.
Qed.

(** X3.  A subscription does not hear other channels: after any of the ten
    registering functions has run, a message on a channel other than its own
    has the same outcome, and calls the same functions of the page, as it
    would have had before. *)
Theorem messages_on_other_channels :
  Forall (fun sub : string * electron.Fn =>
    forall (args payload : list JsVal) (r : Renderer) (ch : string),
      ch ≠ sub.1 ->
      fst (deliver ch payload (exec (sub.2 args) r)) = fst (deliver ch payload r) /\
      page_calls (exec (deliver ch payload) (exec (sub.2 args) r))
      = page_calls (exec (deliver ch payload) r))
    listening.
Proof.
  unfold listening, electron.subscriptions. cbn [app].
  repeat apply List.Forall_cons; try apply List.Forall_nil;
    intros args payload r ch Hne; cbn [fst snd] in *;
    unfold deliver, exec, bind, get;
    match goal with
    | |- context [listeners_on ch (?f args r).2] =>
        replace (listeners_on ch (f args r).2) with (listeners_on ch r);
        [ apply run_listeners_page
        | unfold listeners_on ]
    end;
    autounfold with bridge;
    cbv [ipcRenderer.send ipcRenderer.on log arrow closure set_listeners bind ret get modify];
    cbn [fst snd ipc_log next_fn listeners page_calls];
    try reflexivity;
    rewrite stored_listeners_at; case_decide; congruence.
Qed.

Lemma messages_on_other_channels_witness :
  "status-update" ≠ "log-message" /\
  page_calls (exec (deliver "status-update" [JStr "running"])
                (exec (electron.logs.onLogMessage [JFun (PageFn 1)])
                   (exec (electron.onStatusUpdate [JFun (PageFn 0)]) initial)))
  = page_calls (exec (deliver "status-update" [JStr "running"])
                  (exec (electron.onStatusUpdate [JFun (PageFn 0)]) initial)).
Proof.
  split; [ discriminate | ].
  pose proof messages_on_other_channels as H. unfold listening, electron.subscriptions in H.
  cbn [app] in H. do 6 apply Forall_inv_tail in H. apply Forall_inv in H.
  apply (H [JFun (PageFn 1)] [JStr "running"]
           (exec (electron.onStatusUpdate [JFun (PageFn 0)]) initial)
           "status-update").
  discriminate.
Defined.

(** X4.  The bridge does not check what it is given as a callback.  A
    registering function called with something that is not a function still
    registers a listener; the next message on its channel then ends in a
    TypeError and calls nothing in the page; and the unsubscriber that came
    back throws as well. *)
Theorem subscription_without_a_function :
  Forall (fun sub : string * electron.Fn =>
    forall (args payload : list JsVal),
      is_function (arg 0 args) = false ->
      length (listeners_on sub.1 (exec (sub.2 args) initial)) = 1%nat /\
      fst (deliver sub.1 payload (exec (sub.2 args) initial))
      = Throw "TypeError: callback is not a function" /\
      page_calls (exec (deliver sub.1 payload) (exec (sub.2 args) initial)) = [])
    listening /\
  Forall (fun sub : string * electron.Fn =>
    forall (args args' : list JsVal),
      is_function (arg 0 args) = false ->
      fst (subscribe_then_call sub.2 args args' initial)
      = Throw "TypeError: The listener argument must be of type function")
    electron.subscriptions.
Proof.
  split; unfold listening, electron.subscriptions; cbn [app];
    repeat apply List.Forall_cons; try apply List.Forall_nil;
    intros args args' Hf; cbn [fst snd]; unfold initial;
    unfold calls, subscribe_then_call, call_returned, deliver, exec;
    autounfold with bridge;
    cbv [ipcRenderer.send ipcRenderer.invoke ipcRenderer.on ipcRenderer.removeListener
         log arrow closure set_listeners bind ret throw get modify run_listeners
         run_listener call_value];
    cbn [fst snd ipc_log next_fn listeners page_calls fn_body];
    destruct (arg 0 args); try discriminate Hf; try reflexivity;
    read_listeners; cbn [fn_body fst snd]; repeat split; reflexivity.
Qed.

Lemma subscription_without_a_function_witness :
  is_function (arg 0 []) = false /\
  fst (deliver "status-update" [JStr "running"] (exec (electron.onStatusUpdate []) initial))
  = Throw "TypeError: callback is not a function".
Proof.
  split; [ reflexivity | ].
  pose proof (proj1 subscription_without_a_function) as H.
  unfold listening, electron.subscriptions in H. cbn [app] in H.
  apply Forall_inv_tail, Forall_inv in H.
  apply (H [] [JStr "running"] eq_refl).
Defined.

(** Each subscribe-and-unsubscribe round leaves one more arrow function on
    the channel and calls nothing in the page. *)
Lemma subscribe_appends :
  Forall (fun sub : string * electron.Fn =>
    forall (k : nat) (r : Renderer),
      listeners_on sub.1 (exec (subscribe_then_call sub.2 [JFun (PageFn k)] []) r)
      = listeners_on sub.1 r
        ++ [{| fn_id := next_fn r; fn_body := wrapper_body sub.1 (JFun (PageFn k)) |}] /\
      page_calls (exec (subscribe_then_call sub.2 [JFun (PageFn k)] []) r) = page_calls r)
    electron.subscriptions.
Proof.
  unfold electron.subscriptions.
  repeat apply List.Forall_cons; try apply List.Forall_nil; intros k r; cbn [fst snd];
    (split; [ run_subscription; read_listeners; reflexivity
            | run_subscription; reflexivity ]).
Qed.

Lemma subscribe_times_listeners (sub : string * electron.Fn) (k n : nat) (r : Renderer) :
  sub ∈ electron.subscriptions ->
  map fn_body (listeners_on sub.1 (subscribe_times sub.2 (JFun (PageFn k)) n r))
  = map fn_body (listeners_on sub.1 r) ++ repeat (wrapper_body sub.1 (JFun (PageFn k))) n /\
  page_calls (subscribe_times sub.2 (JFun (PageFn k)) n r) = page_calls r.
Proof.
  intros Hin.
  pose proof (proj1 (Forall_forall _ _) subscribe_appends sub Hin) as Happ. cbv beta in Happ.
  induction n as [| n [IHl IHp]]; cbn [subscribe_times repeat].
  - by rewrite app_nil_r.
  - destruct (Happ k (subscribe_times sub.2 (JFun (PageFn k)) n r)) as [Hl Hp].
    rewrite Hl, Hp, map_app, IHl, IHp. split; [ | reflexivity ].
    rewrite <- app_assoc. f_equal. cbn [map fn_body].
    symmetry. apply repeat_cons.
Qed.

(** Running [n] arrow functions of the same body around a function of the
    page calls that function [n] times. *)
Lemma run_same_bodies (ch : string) (f : FunId) (payload : JsVal)
    (ls : list Listener) (n : nat) (r : Renderer) :
  map fn_body ls = repeat (wrapper_body ch (JFun f)) n ->
  page_calls (exec (run_listeners ls [payload]) r)
  = page_calls r
    ++ repeat (f, if String.eqb ch "profiles-changed" then [] else [payload]) n.
Proof.
  revert n r. induction ls as [| l ls IH]; intros [| n] r Hb; try discriminate Hb.
  - cbn. by rewrite app_nil_r.
  - cbn [map repeat] in Hb. injection Hb as Hl Hls.
    unfold exec in *. cbn [run_listeners]. unfold bind, run_listener. rewrite Hl.
    unfold wrapper_body. destruct (String.eqb ch "profiles-changed") eqn:E;
      cbn [call_value modify fst snd];
      rewrite (IH n _ Hls); cbn [page_calls repeat arg nth];
      by rewrite <- app_assoc.
Qed.

(** X5.  Subscriptions pile up.  Go through subscribe-then-unsubscribe [n]
    times with the same function of the page, starting with no listeners:
    the channel then has [n] listeners, and one message calls the page's
    function [n] times, each time with the message's first argument (with
    none for 'profiles-changed'). *)
Theorem repeated_subscriptions_pile_up :
  Forall (fun sub : string * electron.Fn =>
    forall (n k : nat) (payload : JsVal),
      length (listeners_on sub.1 (subscribe_times sub.2 (JFun (PageFn k)) n initial)) = n /\
      page_calls (exec (deliver sub.1 [payload])
                    (subscribe_times sub.2 (JFun (PageFn k)) n initial))
      = repeat (PageFn k, if String.eqb sub.1 "profiles-changed" then [] else [payload]) n)
    electron.subscriptions.
Proof.
  apply Forall_forall. intros sub Hin n k payload.
  destruct (subscribe_times_listeners sub k n initial Hin) as [Hl Hp].
  change (listeners_on sub.1 initial) with (@nil Listener) in Hl. cbn [map app] in Hl.
  split.
  - rewrite <- (length_map fn_body), Hl. apply repeat_length.
  - unfold deliver, exec, bind, get.
    pose proof (run_same_bodies sub.1 (PageFn k) payload _ n
                  (subscribe_times sub.2 (JFun (PageFn k)) n initial) Hl) as Hrun.
    unfold exec in Hrun. rewrite Hrun, Hp. reflexivity.
Qed.

End Bridge.

(** ** The window manager *)

Section Rules.
Import Window.
Context {A B : Type} (I : Main -> Prop).

Lemma keeps_ret (a : A) : Keeps I (ret a).
Proof. intros m H. exact H. Qed.

Lemma keeps_throw (e : string) : Keeps I (@throw Main A e).
Proof. intros m H. exact H. Qed.

Lemma keeps_bind (c : Js Main A) (k : A -> Js Main B) :
  Keeps I c -> (forall a, Keeps I (k a)) -> Keeps I (bind c k).
Proof.
  intros Hc Hk m H. specialize (Hc m H). unfold exec, bind in *.
  destruct (c m) as [[a | e] m']; simpl in *; [ apply (Hk a m' Hc) | exact Hc ].
Qed.

Lemma keeps_get_bind (k : Main -> Js Main B) :
  (forall m0, Keeps I (k m0)) -> Keeps I (bind get k).
Proof. intros Hk m H. unfold exec, bind, get. apply (Hk m m H). Qed.

Lemma keeps_try_catch (c : Js Main A) (h : string -> Js Main A) :
  Keeps I c -> (forall e, Keeps I (h e)) -> Keeps I (try_catch c h).
Proof.
  intros Hc Hh m H. specialize (Hc m H). unfold exec, try_catch in *.
  destruct (c m) as [[a | e] m']; simpl in *; [ exact Hc | apply (Hh e m' Hc) ].
Qed.

Lemma keeps_modify (f : Main -> Main) :
  (forall m, I m -> I (f m)) -> Keeps I (modify f).
Proof. intros Hf m H. apply Hf, H. Qed.

Lemma keeps_on_mainWindow (f : BrowserWindow -> Js Main A) :
  (forall w m, I m -> mainWindow m = Some w -> destroyed w = false -> I (exec (f w) m)) ->
  Keeps I (on_mainWindow f).
Proof.
  intros Hf m H. unfold exec, on_mainWindow, bind, get.
  destruct (mainWindow m) as [w |] eqn:Hw; [ | exact H ].
  destruct (destroyed w) eqn:Hd; [ exact H | ].
  apply (Hf w m H Hw Hd).
Qed.

Lemma keeps_query (f : BrowserWindow -> A) : Keeps I (query f).
Proof. apply keeps_on_mainWindow. intros w m H _ _. exact H. Qed.

End Rules.

Lemma keeps_update (I : Window.Main -> Prop)
    (f : Window.BrowserWindow -> Window.BrowserWindow) :
  (forall w m, I m -> Window.mainWindow m = Some w -> Window.destroyed w = false ->
               I (Window.set_mainWindow (Some (f w)) m)) ->
  Keeps I (Window.update f).
Proof.
  intros Hf. apply keeps_on_mainWindow. intros w m H Hw Hd. apply (Hf w m H Hw Hd).
Qed.

Create HintDb window.
#[local] Hint Unfold
  Window.on_headers_received Window.on_will_resize Window.on_resize
  Window.on_did_fail_load_logged Window.on_did_fail_load Window.on_did_finish_load
  Window.on_window_minimize Window.on_window_close Window.on_window_maximize
  Window.on_close Window.on_before_input_event Window.loadAppContent
  Window.bad_arguments Window.preventDefault Window.effect
  Window.win.minimize Window.win.maximize Window.win.unmaximize Window.win.restore
  Window.win.hide Window.win.show Window.win.focus Window.win.isVisible
  Window.win.isMinimized Window.win.isMaximized Window.win.getSize Window.win.setSize
  Window.win.setMinimumSize Window.win.loadURL Window.win.loadFile
  Window.win.webContents.send Window.win.webContents.isDevToolsOpened
  Window.win.webContents.openDevTools Window.win.webContents.closeDevTools : window.

Ltac keeps_step :=
  match goal with
  | |- Keeps _ (ret _) => apply keeps_ret
  | |- Keeps _ (throw _) => apply keeps_throw
  | |- Keeps _ (Window.query _) => apply keeps_query
  | |- Keeps _ (bind get _) => apply keeps_get_bind; intros ?
  | |- Keeps _ (bind _ _) => apply keeps_bind; [ | intros ? ]
  | |- Keeps _ (try_catch _ _) => apply keeps_try_catch; [ | intros ? ]
  | |- Keeps _ (if ?c then _ else _) => destruct c
  | |- Keeps _ (match ?a with _ => _ end) => destruct a
  end.

(** What the registered functions can do to a property of the main process:
    it survives them all as soon as it survives an added effect, a change of
    the event's flag, a gentle window method and the resize handler's
    [setSize]. *)
Section Frame.
Import Window.
Variable I : Main -> Prop.
Hypothesis I_effect : forall e m, I m -> I (add_effect e m).
Hypothesis I_prevented : forall b m, I m -> I (set_defaultPrevented b m).
Hypothesis I_gentle : forall f w m,
  gentle f -> I m -> mainWindow m = Some w -> destroyed w = false ->
  I (set_mainWindow (Some (f w)) m).
Hypothesis I_setSize : forall a b w m,
  I m -> mainWindow m = Some w -> destroyed w = false ->
  I (set_mainWindow (Some (BW.setSize (Z.max a 800) (Z.max b 600) w)) m).

Ltac keeps :=
  autounfold with window;
  repeat keeps_step;
  try match goal with
      | |- Keeps _ (modify _) =>
          apply keeps_modify; intros; first [ apply I_effect | apply I_prevented ]; assumption
      | |- Keeps _ (on_mainWindow _) =>
          apply keeps_on_mainWindow; intros; apply I_effect; assumption
      | |- Keeps _ (update (BW.setSize _ _)) =>
          apply keeps_update; intros; apply I_setSize; assumption
      | |- Keeps _ (update _) =>
          apply keeps_update; intros; apply I_gentle;
          [ intros []; split; reflexivity | assumption .. ]
      end.

Lemma call_handler_keeps (h : Handler) (a : Args) : Keeps I (call_handler h a).
Proof. destruct h; cbn [call_handler]; keeps. Qed.

Lemma emit_keeps (hs : list Handler) (a : Args) : Keeps I (emit hs a).
Proof.
  induction hs as [| h hs IH]; cbn [emit].
  - apply keeps_ret.
  - apply keeps_bind; [ apply call_handler_keeps | intros _; exact IH ].
Qed.

Lemma loadAppContent_keeps : Keeps I loadAppContent.
Proof. keeps. Qed.

(** An event dispatched to the window's listeners, when all that follows the
    listeners keeps the property too. *)
Lemma window_event_keeps (k : Js Main unit) :
  Keeps I k -> Keeps I (window_event k).
Proof.
  intros Hk. unfold window_event. keeps. exact Hk.
Qed.

End Frame.

Section WindowManager.
Import Window.

(** The state [createWindow] leaves when it runs on the freshly loaded
    module. *)
Lemma createWindow_state (env : option string) (q : JsVal) (wd : World) :
  exec createWindow (load env q wd) =
  {| isDev := isDev (load env q wd);
     mainWindow := Some sample_window;
     isQuitting := q;
     world := wd;
     defaultPrevented := false;
     ipcMain_listeners := wired_ipcMain;
     window_listeners := wired_window;
     webContents_listeners := wired_webContents;
     headers_listener :=
       if isDev (load env q wd) then Some headers_received else None;
     effects := [ LoggerSetMainWindow; SingboxSetMainWindow; SingboxSetMainWindow;
                  page_load (isDev (load env q wd)) wd ] |}.
Proof.
  destruct wd as [ex sc]. unfold load; cbn [isDev].
  set (dev := match env with Some v => String.eqb v "development" | None => false end).
  destruct dev; unfold page_load, indexPath, altPath; cbn [existsSync].
  - reflexivity.
  - vm_compute.
    repeat match goal with |- context [ex ?p] => destruct (ex p) end; reflexivity.
Qed.

Ltac open_main m w Hc Hw Hd :=
  destruct Hc as [Hil Hwl Hwcl Hhl];
  destruct m as [dev mw q wd dp il wl wcl hl effs];
  destruct w as [opts dd vis mn mx foc sz msz dto];
  cbn in Hil, Hwl, Hwcl, Hhl, Hw, Hd; subst.

Ltac run_main :=
  unfold step, exec; cbv -[truthy Z.ltb Z.max pretty String.append].

(** The page's close button hides a live main window. *)
Lemma window_close_message (m : Main) (w : BrowserWindow) :
  created m -> mainWindow m = Some w -> destroyed w = false ->
  step (IpcMessage "window-close") m = set_mainWindow (Some (BW.hide w)) m.
Proof. intros Hc Hw Hd. open_main m w Hc Hw Hd. run_main. reflexivity. Qed.



(** Without a usable main window the three window-control messages change
    nothing. *)
Lemma window_message_without_window (m : Main) (ch : string) :
  created m -> exists_and_not_destroyed m = false ->
  ch ∈ ["window-minimize"; "window-close"; "window-maximize"] ->
  step (IpcMessage ch) m = m.
Proof.
  intros Hc Hn Hch.
  destruct Hc as [Hil _ _ _]. destruct m as [dev mw q wd dp il wl wcl hl effs].
  cbn in Hil. subst il. unfold exists_and_not_destroyed in Hn. cbn in Hn.
  assert (Hmw : match mw with Some w => destroyed w = true | None => True end).
  { destruct mw as [w |]; [ by destruct (destroyed w) | exact Logic.I ]. }
  clear Hn.
  repeat (apply elem_of_cons in Hch as [-> | Hch]); [ | | | by apply elem_of_nil in Hch ];
    destruct mw as [[opts dd vis mn mx foc sz msz dto] |]; cbn in Hmw; subst;
    reflexivity.
Qed.

(** A close request while the application is not quitting. *)
Lemma close_request_refused (m : Main) (w : BrowserWindow) :
  created m -> mainWindow m = Some w -> destroyed w = false ->
  truthy (isQuitting m) = false ->
  step CloseRequested m
  = set_mainWindow (Some (BW.hide w)) (set_defaultPrevented true m).
Proof.
  intros Hc Hw Hd Hq. open_main m w Hc Hw Hd. cbn in Hq.
  run_main. rewrite Hq. reflexivity.
Qed.

(** A close request once the application is quitting. *)
Lemma close_request_granted (m : Main) (w : BrowserWindow) :
  created m -> mainWindow m = Some w -> destroyed w = false ->
  truthy (isQuitting m) = true ->
  step CloseRequested m
  = set_mainWindow (Some (BW.destroy w)) (set_defaultPrevented false m).
Proof.
  intros Hc Hw Hd Hq. open_main m w Hc Hw Hd. cbn in Hq.
  run_main. rewrite Hq. reflexivity.
Qed.

Ltac compare_sizes :=
  repeat match goal with
         | |- context [?a <? ?b] => destruct (Z.ltb_spec a b)
         end;
  try lia; try reflexivity.

(** A drag to bounds below 800 x 600 is refused and changes nothing else. *)
Lemma will_resize_small (m : Main) (w : BrowserWindow) (nw nh : Z) :
  created m -> mainWindow m = Some w -> destroyed w = false ->
  nw < 800 \/ nh < 600 ->
  step (WillResize nw nh) m = set_defaultPrevented true m.
Proof.
  intros Hc Hw Hd Hs. open_main m w Hc Hw Hd. run_main. compare_sizes.
Qed.

(** A drag to bounds of at least 800 x 600 goes through. *)
Lemma will_resize_large (m : Main) (w : BrowserWindow) (nw nh : Z) :
  created m -> mainWindow m = Some w -> destroyed w = false ->
  800 <= nw -> 600 <= nh ->
  step (WillResize nw nh) m
  = set_mainWindow (Some (BW.place nw nh w)) (set_defaultPrevented false m).
Proof.
  intros Hc Hw Hd Hnw Hnh. open_main m w Hc Hw Hd. run_main. compare_sizes.
Qed.

(** After the window system resized the window, the resize handler brings a
    size below 800 x 600 back up. *)
Lemma resized_state (m : Main) (w : BrowserWindow) (nw nh : Z) :
  created m -> mainWindow m = Some w -> destroyed w = false ->
  step (Resized nw nh) m
  = set_mainWindow
      (Some (if (nw <? 800) || (nh <? 600)
             then BW.setSize (Z.max nw 800) (Z.max nh 600) (BW.place nw nh w)
             else BW.place nw nh w))
      (set_defaultPrevented false m).
Proof.
  intros Hc Hw Hd. open_main m w Hc Hw Hd. run_main. compare_sizes.
Qed.

(** An event for the window reaches nobody once the window is gone. *)
Lemma window_event_without_window (m : Main) (e : Event) :
  exists_and_not_destroyed m = false ->
  e ∈ [CloseRequested; DidFinishLoad] \/
  (exists nw nh, e = WillResize nw nh \/ e = Resized nw nh) \/
  (exists code desc, e = DidFailLoad code desc) \/
  (exists key control, e = BeforeInput key control) ->
  step e m = m.
Proof.
  intros Hn He.
  assert (Hrun : forall k, exec (window_event k) m = m).
  { intros k. unfold exec, window_event, bind, get. rewrite Hn. reflexivity. }
  destruct He as [He | [(nw & nh & [-> | ->]) | [(code & desc & ->) | (key & control & ->)]]];
    [ repeat (apply elem_of_cons in He as [-> | He]); [ | | by apply elem_of_nil in He ] | .. ];
    apply Hrun.
Qed.

(** What a finished page load does to a live window. *)
Lemma did_finish_load_state (m : Main) (w : BrowserWindow) :
  created m -> mainWindow m = Some w -> destroyed w = false ->
  step DidFinishLoad m
  = let shown :=
      set_mainWindow (Some (if visible w then w else BW.show w))
                     (add_effect (LoggerInfo "Page loaded successfully")
                                 (set_defaultPrevented false m)) in
    let scanned := add_effect ScanProfileConfig shown in
    let profileData := scanProfileConfig (world m) in
    if truthy profileData
    then add_effect (WebContentsSend "profile-data" profileData) scanned
    else scanned.
Proof.
  intros Hc Hw Hd. open_main m w Hc Hw Hd. destruct wd as [ex sc].
  run_main. destruct vis; cbv -[truthy]; destruct (truthy sc); reflexivity.
Qed.

(** *** What every event keeps *)

Lemma created_transfer (m m' : Main) : same_wiring m m' -> created m -> created m'.
Proof.
  intros (Hd & Hi & Hw & Hc & Hh) [Ci Cw Cc Ch].
  constructor; [ by rewrite Hi | by rewrite Hw | by rewrite Hc | by rewrite Hh, Hd ].
Qed.

Ltac rewired :=
  intros; eapply created_transfer; [ | eassumption ]; repeat split; reflexivity.

Ltac dispatch_keeps Le Lp Lg Ls side :=
  unfold dispatch, window_event;
  repeat first
    [ keeps_step
    | match goal with
      | |- Keeps _ (emit _ _) => apply emit_keeps; [ exact Le | exact Lp | exact Lg | exact Ls ]
      | |- Keeps _ (call_handler _ _) =>
          apply call_handler_keeps; [ exact Le | exact Lp | exact Lg | exact Ls ]
      | |- Keeps _ loadAppContent =>
          apply loadAppContent_keeps; first [ exact Le | exact Lp | exact Lg | exact Ls ]
      | |- Keeps _ (modify _) => apply keeps_modify; side
      | |- Keeps _ (update _) => apply keeps_update; side
      end ].

Lemma created_effect (e : Effect) (m : Main) : created m -> created (add_effect e m).
Proof. rewired. Qed.

Lemma created_prevented (b : bool) (m : Main) :
  created m -> created (set_defaultPrevented b m).
Proof. rewired. Qed.

Lemma created_set_window (w : option BrowserWindow) (m : Main) :
  created m -> created (set_mainWindow w m).
Proof. rewired. Qed.

Lemma created_gentle (f : BrowserWindow -> BrowserWindow) (w : BrowserWindow) (m : Main) :
  gentle f -> created m -> mainWindow m = Some w -> destroyed w = false ->
  created (set_mainWindow (Some (f w)) m).
Proof. intros _ H _ _. by apply created_set_window. Qed.

Lemma created_setSize (a b : Z) (w : BrowserWindow) (m : Main) :
  created m -> mainWindow m = Some w -> destroyed w = false ->
  created (set_mainWindow (Some (BW.setSize (Z.max a 800) (Z.max b 600) w)) m).
Proof. intros H _ _. by apply created_set_window. Qed.

(** No event changes which listeners are registered. *)
Lemma step_created (e : Event) (m : Main) : created m -> created (step e m).
Proof.
  revert m. change (Keeps created (dispatch e)).
  destruct e;
    dispatch_keeps created_effect created_prevented created_gentle created_setSize rewired.
Qed.

Lemma run_created (es : list Event) (m : Main) : created m -> created (run es m).
Proof.
  revert m. induction es as [| e es IH]; intros m H; [ exact H | ].
  apply IH, step_created, H.
Qed.

(** *** The window stays open while the application is not quitting *)

Lemma stays_open_transfer (m m' : Main) :
  same_wiring m m' -> isQuitting m' = isQuitting m -> alive m' ->
  stays_open m -> stays_open m'.
Proof.
  intros Hs Hq Ha (Hc & _ & Hf). split; [ by eapply created_transfer | ].
  split; [ exact Ha | by rewrite Hq ].
Qed.

Lemma stays_open_set_window (w' : BrowserWindow) (m : Main) :
  destroyed w' = false -> stays_open m -> stays_open (set_mainWindow (Some w') m).
Proof.
  intros Hd H. eapply stays_open_transfer; [ | | | exact H ];
    [ repeat split; reflexivity | reflexivity | by exists w' ].
Qed.

Lemma stays_open_effect (e : Effect) (m : Main) : stays_open m -> stays_open (add_effect e m).
Proof.
  intros H. eapply stays_open_transfer; [ | | | exact H ];
    [ repeat split; reflexivity | reflexivity | exact (proj1 (proj2 H)) ].
Qed.

Lemma stays_open_prevented (b : bool) (m : Main) :
  stays_open m -> stays_open (set_defaultPrevented b m).
Proof.
  intros H. eapply stays_open_transfer; [ | | | exact H ];
    [ repeat split; reflexivity | reflexivity | exact (proj1 (proj2 H)) ].
Qed.

Lemma stays_open_world (wd : World) (m : Main) : stays_open m -> stays_open (set_world wd m).
Proof.
  intros H. eapply stays_open_transfer; [ | | | exact H ];
    [ repeat split; reflexivity | reflexivity | exact (proj1 (proj2 H)) ].
Qed.

Lemma stays_open_gentle (f : BrowserWindow -> BrowserWindow) (w : BrowserWindow) (m : Main) :
  gentle f -> stays_open m -> mainWindow m = Some w -> destroyed w = false ->
  stays_open (set_mainWindow (Some (f w)) m).
Proof.
  intros Hf H _ Hd. apply stays_open_set_window; [ | exact H ].
  by rewrite (proj1 (Hf w)).
Qed.

Lemma stays_open_setSize (a b : Z) (w : BrowserWindow) (m : Main) :
  stays_open m -> mainWindow m = Some w -> destroyed w = false ->
  stays_open (set_mainWindow (Some (BW.setSize (Z.max a 800) (Z.max b 600) w)) m).
Proof. intros H _ Hd. apply stays_open_set_window; [ exact Hd | exact H ]. Qed.

Ltac still_open :=
  intros;
  first [ apply stays_open_prevented; assumption
        | apply stays_open_world; assumption
        | apply stays_open_set_window; [ assumption | assumption ] ].

(** One event that leaves [global.isQuitting] falsy leaves the window open. *)
Lemma step_stays_open (e : Event) (m : Main) :
  quiet e = true -> stays_open m -> stays_open (step e m).
Proof.
  intros Hq. destruct e;
    try (revert m;
         match goal with |- forall m, _ -> _ (step ?e m) =>
           change (Keeps stays_open (dispatch e)) end;
         dispatch_keeps stays_open_effect stays_open_prevented stays_open_gentle
                        stays_open_setSize still_open;
         fail).
  - intros (Hc & (w & Hw & Hd) & Hf).
    rewrite (close_request_refused m w Hc Hw Hd Hf).
    apply stays_open_set_window; [ exact Hd | ].
    apply stays_open_prevented. split; [ exact Hc | split; [ by exists w | exact Hf ] ].
  - intros (Hc & Ha & Hf). cbn in Hq. apply negb_true_iff in Hq.
    split; [ by apply step_created | split; [ exact Ha | exact Hq ] ].
Qed.

Lemma run_stays_open (es : list Event) (m : Main) :
  forallb quiet es = true -> stays_open m -> stays_open (run es m).
Proof.
  revert m. induction es as [| e es IH]; intros m Hq H; [ exact H | ].
  cbn in Hq. apply andb_true_iff in Hq as [He Hes].
  apply (IH _ Hes), step_stays_open; assumption.
Qed.

(** *** The window never gets smaller than 800 x 600 *)

Lemma large_enough_unchanged (m m' : Main) :
  same_wiring m m' -> mainWindow m' = mainWindow m -> large_enough m -> large_enough m'.
Proof.
  intros Hs Hw (Hc & w & Hm & Hsz). split; [ by eapply created_transfer | ].
  exists w. by rewrite Hw.
Qed.

Lemma large_enough_set_window (w' : BrowserWindow) (m : Main) :
  800 <= fst (size w') -> 600 <= snd (size w') ->
  large_enough m -> large_enough (set_mainWindow (Some w') m).
Proof.
  intros H1 H2 (Hc & _). split; [ by apply created_set_window | ].
  exists w'. by repeat split.
Qed.

Lemma large_enough_same_size (w w' : BrowserWindow) (m : Main) :
  mainWindow m = Some w -> size w' = size w ->
  large_enough m -> large_enough (set_mainWindow (Some w') m).
Proof.
  intros Hw Hs H. destruct H as (Hc & w0 & Hw0 & H1 & H2).
  rewrite Hw in Hw0. injection Hw0 as <-.
  apply large_enough_set_window; [ by rewrite Hs | by rewrite Hs | ].
  split; [ exact Hc | by exists w ].
Qed.

Lemma large_enough_effect (e : Effect) (m : Main) :
  large_enough m -> large_enough (add_effect e m).
Proof. apply large_enough_unchanged; [ repeat split | ]; reflexivity. Qed.

Lemma large_enough_prevented (b : bool) (m : Main) :
  large_enough m -> large_enough (set_defaultPrevented b m).
Proof. apply large_enough_unchanged; [ repeat split | ]; reflexivity. Qed.

Lemma large_enough_gentle (f : BrowserWindow -> BrowserWindow) (w : BrowserWindow) (m : Main) :
  gentle f -> large_enough m -> mainWindow m = Some w -> destroyed w = false ->
  large_enough (set_mainWindow (Some (f w)) m).
Proof.
  intros Hf H Hw _. by apply (large_enough_same_size w); [ | apply (Hf w) | ].
Qed.

Lemma setSize_large (a b : Z) (w : BrowserWindow) :
  800 <= fst (size (BW.setSize (Z.max a 800) (Z.max b 600) w)) /\
  600 <= snd (size (BW.setSize (Z.max a 800) (Z.max b 600) w)).
Proof. cbn. lia. Qed.

Lemma large_enough_setSize (a b : Z) (w : BrowserWindow) (m : Main) :
  large_enough m -> mainWindow m = Some w -> destroyed w = false ->
  large_enough (set_mainWindow (Some (BW.setSize (Z.max a 800) (Z.max b 600) w)) m).
Proof.
  intros H _ _. apply large_enough_set_window; [ apply setSize_large .. | exact H ].
Qed.

Ltac still_large :=
  intros;
  first [ eapply large_enough_unchanged; [ | | eassumption ];
          [ repeat split; reflexivity | reflexivity ]
        | eapply large_enough_same_size; [ eassumption | reflexivity | assumption ] ].

Lemma usable_window (m : Main) :
  exists_and_not_destroyed m = true ->
  exists w, mainWindow m = Some w /\ destroyed w = false.
Proof.
  unfold exists_and_not_destroyed. destruct (mainWindow m) as [w |]; [ | discriminate ].
  intros H. exists w. split; [ reflexivity | by apply negb_true_iff ].
Qed.

(** One event leaves the main window at least 800 x 600. *)
Lemma step_large_enough (e : Event) (m : Main) :
  large_enough m -> large_enough (step e m).
Proof.
  destruct e as [ch | | nw nh | nw nh | | code desc | key control | rh | | v | wd];
    try (revert m;
         match goal with |- forall m, _ -> _ (step ?e m) =>
           change (Keeps large_enough (dispatch e)) end;
         dispatch_keeps large_enough_effect large_enough_prevented large_enough_gentle
                        large_enough_setSize still_large;
         fail).
  - (* the frame is dragged *)
    intros H. destruct (exists_and_not_destroyed m) eqn:Hu.
    + destruct (usable_window m Hu) as (w & Hw & Hd).
      destruct (Z.lt_ge_cases nw 800) as [Hs | Hl1];
        [ | destruct (Z.lt_ge_cases nh 600) as [Hs | Hl2] ].
      * rewrite (will_resize_small m w _ _ (proj1 H) Hw Hd (or_introl Hs)).
        by apply large_enough_prevented.
      * rewrite (will_resize_small m w _ _ (proj1 H) Hw Hd (or_intror Hs)).
        by apply large_enough_prevented.
      * rewrite (will_resize_large m w _ _ (proj1 H) Hw Hd Hl1 Hl2).
        apply large_enough_set_window; [ exact Hl1 | exact Hl2 | ].
        by apply large_enough_prevented.
    + rewrite window_event_without_window; [ exact H | exact Hu | ].
      right; left. exists nw, nh. by left.
  - (* the window system resized the window *)
    intros H. destruct (exists_and_not_destroyed m) eqn:Hu.
    + destruct (usable_window m Hu) as (w & Hw & Hd).
      rewrite (resized_state m w _ _ (proj1 H) Hw Hd).
      apply large_enough_set_window; [ | | by apply large_enough_prevented ].
      * destruct ((nw <? 800) || (nh <? 600)) eqn:E;
          [ apply setSize_large | ].
        apply orb_false_iff in E as [E _]. apply Z.ltb_ge in E. exact E.
      * destruct ((nw <? 800) || (nh <? 600)) eqn:E;
          [ apply setSize_large | ].
        apply orb_false_iff in E as [_ E]. apply Z.ltb_ge in E. exact E.
    + rewrite window_event_without_window; [ exact H | exact Hu | ].
      right; left. exists nw, nh. by right.
Qed.

Lemma run_large_enough (es : list Event) (m : Main) :
  large_enough m -> large_enough (run es m).
Proof.
  revert m. induction es as [| e es IH]; intros m H; [ exact H | ].
  apply IH, step_large_enough, H.
Qed.

(** *** The statements about the window manager *)

Lemma created_after_createWindow (env : option string) (q : JsVal) (wd : World) :
  created (exec createWindow (load env q wd)).
Proof. rewrite createWindow_state. constructor; reflexivity. Qed.

Lemma isDev_development (env : option string) (q : JsVal) (wd : World) :
  isDev (load env q wd) = bool_decide (env = Some "development").
Proof.
  destruct env as [v |]; cbn [load isDev]; [ | reflexivity ].
  destruct (String.eqb_spec v "development") as [-> | Hne].
  - by rewrite bool_decide_eq_true_2.
  - rewrite bool_decide_eq_false_2; [ reflexivity | congruence ].
Qed.

(** The resize handler leaves a live window at least 800 x 600. *)
Lemma on_resize_large (m : Main) (w : BrowserWindow) :
  mainWindow m = Some w -> destroyed w = false ->
  exists w', mainWindow (exec (on_resize NoArgs) m) = Some w' /\
             800 <= fst (size w') /\ 600 <= snd (size w').
Proof.
  intros Hw Hd.
  destruct m as [dev mw q wd dp il wl wcl hl effs];
    destruct w as [opts dd vis mn mx foc [a b] msz dto]; cbn in Hw, Hd; subst.
  unfold exec. cbv -[Z.ltb Z.max Z.le].
  destruct (Z.ltb_spec a 800); [ | destruct (Z.ltb_spec b 600) ];
    eexists; (split; [ reflexivity | cbn -[Z.max]; lia ]).
Qed.

(** C3.  After a page load the profile manager is asked to scan and, exactly
    when what it returns is truthy, the result goes to the page on
    'profile-data'; rename, delete and export are invoked on channels of
    their own; subscribing to profile changes announces itself on
    'profiles-changed-listen', listens on 'profiles-changed', and the
    function it returns announces 'profiles-changed-unlisten'. *)
Theorem profile_management_reachable :
  (forall m w,
      created m -> mainWindow m = Some w -> destroyed w = false ->
      new_effects m (step DidFinishLoad m)
      = [LoggerInfo "Page loaded successfully"; ScanProfileConfig]
        ++ (if truthy (scanProfileConfig (world m))
            then [WebContentsSend "profile-data" (scanProfileConfig (world m))]
            else [])) /\
  (forall args r, calls (electron.renameProfile args) r
                  = [Preload.Invoke "renameProfile" [arg 0 args]]) /\
  (forall args r, calls (electron.deleteProfile args) r
                  = [Preload.Invoke "deleteProfile" [arg 0 args]]) /\
  (forall args r, calls (electron.exportProfile args) r
                  = [Preload.Invoke "exportProfile" [arg 0 args]]) /\
  (forall args r, calls (electron.onProfilesChanged args) r
                  = [ Preload.Send "profiles-changed-listen" [];
                      Preload.On "profiles-changed"
                         {| Preload.fn_id := Preload.next_fn r;
                            Preload.fn_body := Preload.ForwardNothing (arg 0 args) |} ]) /\
  (forall args args' r,
      calls (subscribe_then_call electron.onProfilesChanged args args') r
      = [ Preload.Send "profiles-changed-listen" [];
          Preload.On "profiles-changed"
             {| Preload.fn_id := Preload.next_fn r;
                Preload.fn_body := Preload.ForwardNothing (arg 0 args) |};
          Preload.Send "profiles-changed-unlisten" [];
          Preload.RemoveListener "profiles-changed" (arg 0 args) ]).
Proof.
  split; [ | exact profile_functions_relay ].
  intros m w Hc Hw Hd. rewrite (did_finish_load_state m w Hc Hw Hd).
  unfold new_effects. cbv zeta.
  destruct (truthy (scanProfileConfig (world m)));
    cbn [effects add_effect set_mainWindow set_defaultPrevented];
    rewrite <- ?app_assoc; rewrite drop_app_length; reflexivity.
Qed.

Lemma profile_management_reachable_witness :
  created sample_main /\
  mainWindow sample_main = Some sample_window /\
  new_effects sample_main (step DidFinishLoad sample_main)
  = [LoggerInfo "Page loaded successfully"; ScanProfileConfig]
    ++ (if truthy (scanProfileConfig (world sample_main))
        then [WebContentsSend "profile-data" (scanProfileConfig (world sample_main))]
        else []).
Proof.
  split; [ constructor; reflexivity | ]. split; [ reflexivity | ].
  apply (proj1 profile_management_reachable sample_main sample_window);
    [ constructor; reflexivity | reflexivity | reflexivity ].
Defined.




(** C6.  The answer to an intercepted response carries the response's own
    headers with 'Content-Security-Policy' set to the fixed policy: every
    other header reads as before.  [createWindow] installs the rewrite
    exactly when NODE_ENV is 'development', and only then does an intercepted
    response get this answer. *)
Theorem csp_header_rewrite :
  (forall (rh : option Headers) (k : string),
      k ≠ "Content-Security-Policy" ->
      responseHeaders (csp_response rh) !! k = default ∅ rh !! k) /\
  (forall rh : option Headers,
      responseHeaders (csp_response rh) !! "Content-Security-Policy" = Some csp_policy) /\
  (forall env q wd,
      headers_listener (exec createWindow (load env q wd))
      = if bool_decide (env = Some "development") then Some headers_received else None) /\
  (forall env q wd rh,
      let m := exec createWindow (load env q wd) in
      new_effects m (step (HeadersReceived rh) m)
      = if bool_decide (env = Some "development")
        then [HeadersCallback (csp_response rh)] else []).
Proof.
  repeat split.
  - intros rh k Hk. unfold csp_response; cbn [responseHeaders].
    by rewrite lookup_insert_ne.
  - intros rh. unfold csp_response; cbn [responseHeaders].
    by rewrite lookup_insert_eq.
  - intros env q wd. rewrite createWindow_state; cbn [headers_listener].
    by rewrite isDev_development.
  - intros env q wd rh. cbv zeta. rewrite createWindow_state, isDev_development.
    destruct (bool_decide (env = Some "development")); reflexivity.
Qed.

Lemma csp_header_rewrite_witness :
  "Content-Type" ≠ "Content-Security-Policy" /\
  responseHeaders (csp_response (Some {[ "Content-Type" := ["text/html"] ]}))
    !! "Content-Type"
  = default ∅ (Some ({[ "Content-Type" := ["text/html"] ]} : Headers)) !! "Content-Type".
Proof.
  split; [ discriminate | ].
  apply (proj1 csp_header_rewrite (Some {[ "Content-Type" := ["text/html"] ]})
               "Content-Type").
  discriminate.
Defined.

(** C7.  While [global.isQuitting] is false (or any falsy value) a close
    request never destroys the main window: the 'window-close' message hides
    it, the window's own 'close' event is prevented and the window hidden,
    and after any run of events that leave [isQuitting] falsy the window is
    still there and not destroyed. *)
Theorem close_requests_hide_while_not_quitting (m : Main) (w : BrowserWindow) :
  created m -> mainWindow m = Some w -> destroyed w = false ->
  truthy (isQuitting m) = false ->
  step (IpcMessage "window-close") m = set_mainWindow (Some (BW.hide w)) m /\
  step CloseRequested m
  = set_mainWindow (Some (BW.hide w)) (set_defaultPrevented true m) /\
  (forall es, forallb quiet es = true -> alive (run es m)).
Proof.
  intros Hc Hw Hd Hq. split; [ by apply window_close_message | ].
  split; [ by apply close_request_refused | ].
  intros es Hes.
  assert (H : stays_open m) by (split; [ exact Hc | split; [ by exists w | exact Hq ] ]).
  exact (proj1 (proj2 (run_stays_open es m Hes H))).
Qed.

Lemma close_requests_hide_while_not_quitting_witness :
  created sample_main /\
  mainWindow sample_main = Some sample_window /\
  truthy (isQuitting sample_main) = false /\
  alive (run [IpcMessage "window-close"; CloseRequested; DidFinishLoad; CloseRequested]
             sample_main).
Proof.
  split; [ constructor; reflexivity | ]. split; [ reflexivity | ].
  split; [ reflexivity | ].
  apply (proj2 (proj2 (close_requests_hide_while_not_quitting sample_main sample_window
                         ltac:(constructor; reflexivity) eq_refl eq_refl eq_refl))).
  reflexivity.
Defined.

(** C8.  The main window is created with minWidth 800 and minHeight 600 and
    gets setMinimumSize(800, 600); a 'will-resize' to bounds narrower than
    800 or lower than 600 is prevented; after the 'resize' handler has run on
    a live window its width is at least 800 and its height at least 600; and
    after any run of events the window [createWindow] made is at least
    800 x 600. *)
Theorem main_window_never_below_minimum :
  (minWidth window_options = 800 /\ minHeight window_options = 600) /\
  (forall env q wd,
      exists w, mainWindow (exec createWindow (load env q wd)) = Some w /\
                options w = window_options /\ minimumSize w = (800, 600)) /\
  (forall m w nw nh,
      created m -> mainWindow m = Some w -> destroyed w = false ->
      nw < 800 \/ nh < 600 ->
      step (WillResize nw nh) m = set_defaultPrevented true m) /\
  (forall m w,
      mainWindow m = Some w -> destroyed w = false ->
      exists w', mainWindow (exec (on_resize NoArgs) m) = Some w' /\
                 800 <= fst (size w') /\ 600 <= snd (size w')) /\
  (forall env q wd es,
      exists w, mainWindow (run es (exec createWindow (load env q wd))) = Some w /\
                800 <= fst (size w) /\ 600 <= snd (size w)).
Proof.
  split; [ split; reflexivity | ].
  split; [ intros env q wd; rewrite createWindow_state; exists sample_window;
           repeat split; reflexivity | ].
  split; [ exact will_resize_small | ].
  split; [ exact on_resize_large | ].
  intros env q wd es.
  apply (run_large_enough es). split; [ apply created_after_createWindow | ].
  rewrite createWindow_state. exists sample_window.
  split; [ reflexivity | cbn; lia ].
Qed.

Lemma main_window_never_below_minimum_witness :
  created sample_main /\
  mainWindow sample_main = Some sample_window /\
  (640 < 800 \/ 900 < 600) /\
  step (WillResize 640 900) sample_main = set_defaultPrevented true sample_main.
Proof.
  split; [ constructor; reflexivity | ]. split; [ reflexivity | ].
  split; [ left; lia | ].
  apply (proj1 (proj2 (proj2 main_window_never_below_minimum))
               sample_main sample_window 640 900);
    [ constructor; reflexivity | reflexivity | reflexivity | left; lia ].
Defined.

(** ** Further properties of the window manager *)

(** X6.  Once [global.isQuitting] is truthy the close handler lets the close
    go through: it returns true without preventing the event, the window is
    destroyed, and no usable main window is left.  While it is falsy the
    handler returns false. *)
Theorem close_request_while_quitting (m : Main) (w : BrowserWindow) :
  created m -> mainWindow m = Some w -> destroyed w = false ->
  (truthy (isQuitting m) = true ->
   fst (on_close NoArgs m) = Normal (JBool true) /\
   exec (on_close NoArgs) m = m /\
   step CloseRequested m
   = set_mainWindow (Some (BW.destroy w)) (set_defaultPrevented false m) /\
   exists_and_not_destroyed (step CloseRequested m) = false) /\
  (truthy (isQuitting m) = false ->
   fst (on_close NoArgs m) = Normal (JBool false)).
Proof.
  intros Hc Hw Hd. split; intros Hq.
  - rewrite (close_request_granted m w Hc Hw Hd Hq).
    open_main m w Hc Hw Hd. cbn in Hq.
    unfold exec, on_close, bind, get. cbn [isQuitting]. rewrite Hq.
    repeat split; reflexivity.
  - open_main m w Hc Hw Hd. cbn in Hq.
    unfold on_close, bind, get. cbn [isQuitting]. rewrite Hq. reflexivity.
Qed.

Lemma close_request_while_quitting_witness :
  created sample_quitting /\
  mainWindow sample_quitting = Some sample_window /\
  truthy (isQuitting sample_quitting) = true /\
  step CloseRequested sample_quitting
  = set_mainWindow (Some (BW.destroy sample_window))
                   (set_defaultPrevented false sample_quitting).
Proof.
  split; [ constructor; reflexivity | ]. split; [ reflexivity | ].
  split; [ reflexivity | ].
  apply (proj1 (close_request_while_quitting sample_quitting sample_window
                  ltac:(constructor; reflexivity) eq_refl eq_refl) eq_refl).
Defined.

(** X7.  [showWindow] brings a live main window to the front: afterwards it
    is visible, not minimized and focused, with its maximized flag and size
    as before, and a second call changes nothing more.  With no main window
    it does nothing.  With a destroyed one it throws, for it only checks that
    [mainWindow] is set. *)
Theorem showWindow_brings_to_front :
  (forall m w,
      mainWindow m = Some w -> destroyed w = false ->
      exists w',
        showWindow m = (Normal tt, set_mainWindow (Some w') m) /\
        visible w' = true /\ minimized w' = false /\ focused w' = true /\
        destroyed w' = false /\ maximized w' = maximized w /\ size w' = size w /\
        exec showWindow (set_mainWindow (Some w') m) = set_mainWindow (Some w') m) /\
  (forall m, mainWindow m = None -> showWindow m = (Normal tt, m)) /\
  (forall m w,
      mainWindow m = Some w -> destroyed w = true ->
      showWindow m = (Throw "TypeError: Object has been destroyed", m)).
Proof.
  repeat split.
  - intros m w Hw Hd.
    destruct m as [dev mw q wd dp il wl wcl hl effs];
      destruct w as [opts dd vis mn mx foc sz msz dto]; cbn in Hw, Hd; subst.
    destruct vis, mn; eexists; (split; [ reflexivity | repeat split; reflexivity ]).
  - intros m Hw. destruct m; cbn in Hw; subst. reflexivity.
  - intros m w Hw Hd.
    destruct m as [dev mw q wd dp il wl wcl hl effs];
      destruct w as [opts dd vis mn mx foc sz msz dto]; cbn in Hw, Hd; subst.
    reflexivity.
Qed.

Lemma showWindow_brings_to_front_witness :
  mainWindow sample_main = Some sample_window /\
  destroyed sample_window = false /\
  exists w', showWindow sample_main = (Normal tt, set_mainWindow (Some w') sample_main) /\
             visible w' = true.
Proof.
  split; [ reflexivity | ]. split; [ reflexivity | ].
  destruct (proj1 showWindow_brings_to_front sample_main sample_window eq_refl eq_refl)
    as (w' & Hrun & Hvis & _).
  exists w'. split; [ exact Hrun | exact Hvis ].
Defined.

(** X8.  [loadAppContent] asks a live main window for exactly one page and
    logs nothing: the development server in a development build; otherwise
    dist/index.html next to the code when it exists, else the copy inside
    app.asar when that exists, else dist/index.html all the same.  Called
    while [mainWindow] is still null it throws: at once in a development
    build, and after logging the error in a production build. *)
Theorem loadAppContent_loads_one_page :
  (forall m w,
      mainWindow m = Some w -> destroyed w = false ->
      exists page,
        loadAppContent m = (Normal tt, add_effect page m) /\
        (isDev m = true -> page = LoadURL "http://localhost:3000") /\
        (isDev m = false -> existsSync (world m) indexPath = true ->
         page = LoadFile indexPath) /\
        (isDev m = false -> existsSync (world m) indexPath = false ->
         page = LoadFile (if existsSync (world m) altPath then altPath else indexPath))) /\
  (forall m,
      mainWindow m = None -> isDev m = true ->
      exists e, loadAppContent m = (Throw e, m)) /\
  (forall m,
      mainWindow m = None -> isDev m = false ->
      exists e e',
        loadAppContent m
        = (Throw e', add_effect (LoggerError ("加载HTML文件时出错: " +:+ e)) m)).
Proof.
  repeat split.
  - intros m w Hw Hd.
    destruct m as [dev mw q [ex sc] dp il wl wcl hl effs];
      destruct w as [opts dd vis mn mx foc sz msz dto]; cbn in Hw, Hd; subst.
    unfold loadAppContent, try_catch, bind, get, indexPath, altPath.
    cbn [isDev world existsSync].
    destruct dev; [ eexists; split; [ reflexivity | ]; repeat split; congruence | ].
    destruct (ex (DirnameJoin ["../../dist"; "index.html"])) eqn:E1;
      [ | destruct (ex (ResourcesJoin ["app.asar"; "dist"; "index.html"])) eqn:E2 ];
      (eexists; split; [ reflexivity | ]; repeat split; congruence).
  - intros m Hw Hdev. destruct m as [dev mw q [ex sc] dp il wl wcl hl effs].
    cbn in Hw, Hdev; subst. eexists. reflexivity.
  - intros m Hw Hdev. destruct m as [dev mw q [ex sc] dp il wl wcl hl effs].
    cbn in Hw, Hdev; subst.
    unfold loadAppContent, try_catch, bind, get, indexPath, altPath.
    cbn [isDev world existsSync].
    destruct (ex (DirnameJoin ["../../dist"; "index.html"]));
      [ | destruct (ex (ResourcesJoin ["app.asar"; "dist"; "index.html"])) ];
      do 2 eexists; reflexivity.
Qed.

Lemma loadAppContent_loads_one_page_witness :
  mainWindow sample_main = Some sample_window /\
  destroyed sample_window = false /\
  exists page, loadAppContent sample_main = (Normal tt, add_effect page sample_main) /\
               page = LoadFile indexPath.
Proof.
  split; [ reflexivity | ]. split; [ reflexivity | ].
  destruct (proj1 loadAppContent_loads_one_page sample_main sample_window eq_refl eq_refl)
    as (page & Hrun & _ & Hindex & _).
  exists page. split; [ exact Hrun | exact (Hindex eq_refl eq_refl) ].
Defined.

(** A reload timer that fires while the window is live. *)
Lemma timer_fired_state (m : Main) (w : BrowserWindow) :
  mainWindow m = Some w -> destroyed w = false ->
  step TimerFired m = add_effect (page_load (isDev m) (world m)) m.
Proof.
  intros Hw Hd.
  destruct m as [dev mw q [ex sc] dp il wl wcl hl effs];
    destruct w as [opts dd vis mn mx foc sz msz dto]; cbn in Hw, Hd; subst.
  unfold step, exec, dispatch, loadAppContent, try_catch, bind, get, page_load,
    indexPath, altPath.
  cbn [isDev world existsSync].
  destruct dev; [ reflexivity | ].
  destruct (ex (DirnameJoin ["../../dist"; "index.html"]));
    [ | destruct (ex (ResourcesJoin ["app.asar"; "dist"; "index.html"])) ];
    reflexivity.
Qed.

Lemma did_fail_load_state (m : Main) (w : BrowserWindow)
    (errorCode : Z) (errorDescription : string) :
  created m -> mainWindow m = Some w -> destroyed w = false ->
  step (DidFailLoad errorCode errorDescription) m
  = add_effect (SetTimeoutLoadAppContent 1000)
      (add_effect (SetTimeoutLoadAppContent 1000)
         (add_effect
            (LoggerError
               ("页面加载失败: " +:+ pretty errorCode +:+ " - " +:+ errorDescription))
            (set_defaultPrevented false m))).
Proof. intros Hc Hw Hd. open_main m w Hc Hw Hd. run_main. reflexivity. Qed.

(** X9.  A failed page load is answered twice.  Both 'did-fail-load'
    listeners run: one error is logged, with the code and the description,
    and two reloads are scheduled for a second later; when both timers have
    fired the page has been asked for twice. *)
Theorem failed_load_schedules_two_reloads (m : Main) (w : BrowserWindow)
    (errorCode : Z) (errorDescription : string) :
  created m -> mainWindow m = Some w -> destroyed w = false ->
  new_effects m (step (DidFailLoad errorCode errorDescription) m)
  = [ LoggerError ("页面加载失败: " +:+ pretty errorCode +:+ " - " +:+ errorDescription);
      SetTimeoutLoadAppContent 1000;
      SetTimeoutLoadAppContent 1000 ] /\
  new_effects m (run [DidFailLoad errorCode errorDescription; TimerFired; TimerFired] m)
  = [ LoggerError ("页面加载失败: " +:+ pretty errorCode +:+ " - " +:+ errorDescription);
      SetTimeoutLoadAppContent 1000;
      SetTimeoutLoadAppContent 1000;
      page_load (isDev m) (world m);
      page_load (isDev m) (world m) ].
Proof.
  intros Hc Hw Hd. unfold run. cbn [foldl].
  rewrite (did_fail_load_state m w _ _ Hc Hw Hd).
  set (failed := add_effect _ (add_effect _ (add_effect _ _))).
  rewrite (timer_fired_state failed w Hw Hd).
  rewrite (timer_fired_state (add_effect _ failed) w Hw Hd).
  subst failed. unfold new_effects.
  cbn [effects add_effect set_defaultPrevented isDev world].
  split; rewrite <- ?app_assoc; rewrite drop_app_length; reflexivity.
Qed.

Lemma failed_load_schedules_two_reloads_witness :
  created sample_main /\
  mainWindow sample_main = Some sample_window /\
  new_effects sample_main (step (DidFailLoad (-105) "ERR_NAME_NOT_RESOLVED") sample_main)
  = [ LoggerError ("页面加载失败: " +:+ pretty (-105) +:+ " - " +:+ "ERR_NAME_NOT_RESOLVED");
      SetTimeoutLoadAppContent 1000;
      SetTimeoutLoadAppContent 1000 ].
Proof.
  split; [ constructor; reflexivity | ]. split; [ reflexivity | ].
  apply (proj1 (failed_load_schedules_two_reloads sample_main sample_window
                  (-105) "ERR_NAME_NOT_RESOLVED"
                  ltac:(constructor; reflexivity) eq_refl eq_refl)).
Defined.

(** X10.  The developer-tools shortcut.  F12, or i with the control key held
    (in either case), flips the developer tools between open and closed and
    prevents the key's default action; any other key is left alone. *)
Theorem devtools_shortcut (m : Main) (w : BrowserWindow) (key : string) (control : bool) :
  created m -> mainWindow m = Some w -> destroyed w = false ->
  (String.eqb key "F12" || (control && lower_is_i key) = true ->
   step (BeforeInput key control) m
   = set_mainWindow (Some (BW.setDevToolsOpened (negb (devToolsOpened w)) w))
                    (set_defaultPrevented true m)) /\
  (String.eqb key "F12" || (control && lower_is_i key) = false ->
   step (BeforeInput key control) m = set_defaultPrevented false m).
Proof.
  intros Hc Hw Hd. open_main m w Hc Hw Hd.
  split; intros Hk; unfold step, exec, dispatch, window_event, bind, get, modify;
    cbn [exists_and_not_destroyed mainWindow destroyed negb set_defaultPrevented
         webContents_listeners fst snd];
    change (registered "before-input-event" wired_webContents) with [before_input_event];
    cbn [emit call_handler]; unfold on_before_input_event, bind; rewrite Hk;
    [ destruct dto | ]; reflexivity.
Qed.

Lemma devtools_shortcut_witness :
  created sample_main /\
  mainWindow sample_main = Some sample_window /\
  String.eqb "I" "F12" || (true && lower_is_i "I") = true /\
  step (BeforeInput "I" true) sample_main
  = set_mainWindow (Some (BW.setDevToolsOpened true sample_window))
                   (set_defaultPrevented true sample_main).
Proof.
  split; [ constructor; reflexivity | ]. split; [ reflexivity | ].
  split; [ reflexivity | ].
  apply (proj1 (devtools_shortcut sample_main sample_window "I" true
                  ltac:(constructor; reflexivity) eq_refl eq_refl) eq_refl).
Defined.

(** X11.  What a change of size comes to.  A drag to bounds of at least
    800 x 600 is not prevented and the window takes exactly those bounds.
    When the window system has put the window at a size that is too narrow
    or too low, the resize handler raises only what is too small: a window
    made by [createWindow] ends at max(width, 800) x max(height, 600). *)
Theorem resize_outcomes (m : Main) (w : BrowserWindow) (nw nh : Z) :
  created m -> mainWindow m = Some w -> destroyed w = false ->
  (800 <= nw -> 600 <= nh ->
   step (WillResize nw nh) m
   = set_mainWindow (Some (BW.place nw nh w)) (set_defaultPrevented false m)) /\
  (minimumSize w = (800, 600) ->
   exists w',
     mainWindow (step (Resized nw nh) m) = Some w' /\
     size w' = (Z.max nw 800, Z.max nh 600) /\
     minimumSize w' = (800, 600) /\ destroyed w' = false).
Proof.
  intros Hc Hw Hd. split.
  - intros H1 H2. by apply will_resize_large.
  - intros Hmin. rewrite (resized_state m w nw nh Hc Hw Hd).
    destruct w as [opts dd vis mn mx foc sz msz dto]. cbn in Hmin, Hd. subst.
    eexists. split; [ reflexivity | ].
    destruct (Z.ltb_spec nw 800); [ | destruct (Z.ltb_spec nh 600) ];
      cbn -[Z.max]; repeat split; f_equal; lia.
Qed.

Lemma resize_outcomes_witness :
  created sample_main /\
  mainWindow sample_main = Some sample_window /\
  minimumSize sample_window = (800, 600) /\
  exists w', mainWindow (step (Resized 500 900) sample_main) = Some w' /\
             size w' = (Z.max 500 800, Z.max 900 600).
Proof.
  split; [ constructor; reflexivity | ]. split; [ reflexivity | ].
  split; [ reflexivity | ].
  destruct (proj2 (resize_outcomes sample_main sample_window 500 900
                     ltac:(constructor; reflexivity) eq_refl eq_refl) eq_refl)
    as (w' & Hw' & Hsz & _).
  exists w'. split; [ exact Hw' | exact Hsz ].
Defined.

Lemma same_wiring_through (m0 m m' : Main) :
  same_wiring m m' -> same_wiring m0 m -> same_wiring m0 m'.
Proof.
  intros (a & b & c & d & e) (a0 & b0 & c0 & d0 & e0).
  repeat split; congruence.
Qed.

Ltac wired_alike :=
  intros; eapply same_wiring_through; [ | eassumption ]; repeat split; reflexivity.

(** X12.  No event registers or removes a listener: whatever reaches the
    main process, the [ipcMain], window, [webContents] and [webRequest]
    listeners afterwards are the ones from before, and so is [isDev]. *)
Theorem events_leave_the_listeners (e : Event) (m : Main) :
  same_wiring m (step e m).
Proof.
  assert (Hk : Keeps (same_wiring m) (dispatch e)).
  { assert (He : forall x s, same_wiring m s -> same_wiring m (add_effect x s))
      by wired_alike.
    assert (Hp : forall b s, same_wiring m s -> same_wiring m (set_defaultPrevented b s))
      by wired_alike.
    assert (Hg : forall f w s, gentle f -> same_wiring m s -> mainWindow s = Some w ->
                               destroyed w = false ->
                               same_wiring m (set_mainWindow (Some (f w)) s))
      by wired_alike.
    assert (Hs : forall a b w s, same_wiring m s -> mainWindow s = Some w ->
                                 destroyed w = false ->
                                 same_wiring m
                                   (set_mainWindow
                                      (Some (BW.setSize (Z.max a 800) (Z.max b 600) w)) s))
      by wired_alike.
    destruct e; dispatch_keeps He Hp Hg Hs wired_alike. }
  apply Hk. repeat split; reflexivity.
Qed.

(** X13.  [createWindow] registers its [ipcMain] listeners again each time it
    runs: in any state it returns a new hidden 1080 x 780 window, makes it
    the main window, and adds the three window-control listeners after those
    [ipcMain] already has.  After a second run one 'window-maximize' message
    therefore runs the handler twice, maximizing the window and unmaximizing
    it again. *)
Theorem createWindow_registers_again :
  (forall m,
      fst (createWindow m) = Normal (Some sample_window) /\
      mainWindow (exec createWindow m) = Some sample_window /\
      ipcMain_listeners (exec createWindow m) = ipcMain_listeners m ++ wired_ipcMain) /\
  (forall env q wd,
      mainWindow (step (IpcMessage "window-maximize")
                    (exec createWindow (exec createWindow (load env q wd))))
      = Some (BW.unmaximize (BW.maximize sample_window))).
Proof.
  split.
  - intros [dev mw q [ex sc] dp il wl wcl hl effs].
    unfold exec. cbv -[app].
    destruct dev;
      repeat match goal with |- context [ex ?p] => destruct (ex p) end;
      rewrite <- ?app_assoc; repeat split; reflexivity.
  - intros env q [ex sc]. rewrite createWindow_state.
    unfold step, exec. cbn [isDev load].
    destruct (match env with Some v => String.eqb v "development" | None => false end);
      cbv; repeat match goal with |- context [ex ?p] => destruct (ex p) end; reflexivity.
Qed.

(** X14.  The window is made hidden and shown by the first finished page
    load: [createWindow] leaves the main window invisible, the first
    'did-finish-load' makes it visible and focused, and a later one leaves
    the window as it is. *)
Theorem window_shown_after_first_load (env : option string) (q : JsVal) (wd : World) :
  let m := exec createWindow (load env q wd) in
  mainWindow m = Some sample_window /\
  visible sample_window = false /\
  mainWindow (step DidFinishLoad m) = Some (BW.show sample_window) /\
  mainWindow (step DidFinishLoad (step DidFinishLoad m)) = Some (BW.show sample_window).
Proof.
  cbv zeta.
  assert (Hc := created_after_createWindow env q wd).
  assert (Hw : mainWindow (exec createWindow (load env q wd)) = Some sample_window)
    by (rewrite createWindow_state; reflexivity).
  assert (H1 : mainWindow (step DidFinishLoad (exec createWindow (load env q wd)))
               = Some (BW.show sample_window)).
  { rewrite (did_finish_load_state _ sample_window Hc Hw eq_refl). cbv zeta.
    destruct (truthy _); reflexivity. }
  repeat split; try assumption.
  rewrite (did_finish_load_state _ (BW.show sample_window)
             (step_created _ _ Hc) H1 eq_refl).
  cbv zeta. destruct (truthy _); reflexivity.
Qed.

(** X15.  After the application has quit and the window has closed, the
    handlers leave the destroyed window alone: the three window-control
    messages, a further close request, resizes, page-load events and key
    presses all change nothing. *)
Theorem destroyed_window_is_left_alone (m : Main) (w : BrowserWindow)
    (nw nh errorCode : Z) (errorDescription key : string) (control : bool) :
  created m -> mainWindow m = Some w -> destroyed w = false ->
  let m' := run [AssignIsQuitting (JBool true); CloseRequested] m in
  mainWindow m' = Some (BW.destroy w) /\
  Forall (fun e => step e m' = m')
    [ IpcMessage "window-minimize"; IpcMessage "window-close"; IpcMessage "window-maximize";
      CloseRequested; DidFinishLoad; WillResize nw nh; Resized nw nh;
      DidFailLoad errorCode errorDescription; BeforeInput key control ].
Proof.
  intros Hc Hw Hd. cbv zeta. unfold run. cbn [foldl].
  set (mq := step (AssignIsQuitting (JBool true)) m).
  assert (Hcq : created mq) by (by apply step_created).
  assert (Hclosed : step CloseRequested mq
                    = set_mainWindow (Some (BW.destroy w)) (set_defaultPrevented false mq))
    by (by apply close_request_granted).
  rewrite Hclosed. split; [ reflexivity | ].
  assert (Hc' : created (set_mainWindow (Some (BW.destroy w)) (set_defaultPrevented false mq)))
    by (rewrite <- Hclosed; by apply step_created).
  repeat apply List.Forall_cons; try apply List.Forall_nil;
    first [ apply window_message_without_window;
            [ exact Hc' | reflexivity | repeat constructor ]
          | apply window_event_without_window; [ reflexivity | ];
            first [ left; by repeat constructor
                  | right; left; do 2 eexists; by left
                  | right; left; do 2 eexists; by right
                  | right; right; left; by do 2 eexists
                  | right; right; right; by do 2 eexists ] ].
Qed.

Lemma destroyed_window_is_left_alone_witness :
  created sample_main /\
  mainWindow sample_main = Some sample_window /\
  mainWindow (run [AssignIsQuitting (JBool true); CloseRequested] sample_main)
  = Some (BW.destroy sample_window).
Proof.
  split; [ constructor; reflexivity | ]. split; [ reflexivity | ].
  apply (proj1 (destroyed_window_is_left_alone sample_main sample_window
                  0 0 0 "" "" false
                  ltac:(constructor; reflexivity) eq_refl eq_refl)).
Defined.

Lemma alive_unchanged (m m' : Main) : mainWindow m' = mainWindow m -> alive m -> alive m'.
Proof. intros Hw (w & Hm & Hd). exists w. by rewrite Hw. Qed.

Lemma alive_set_window (w' : BrowserWindow) (m : Main) :
  destroyed w' = false -> alive (set_mainWindow (Some w') m).
Proof. intros Hd. by exists w'. Qed.

Ltac still_alive :=
  intros;
  first [ eapply alive_unchanged; [ | eassumption ]; reflexivity
        | apply alive_set_window; assumption ].

(** X16.  Only a close request can destroy the main window: after any other
    event a live window is still live.  In particular the page's
    'window-close' message only hides the window, whether or not the
    application is quitting. *)
Theorem only_a_close_request_destroys :
  (forall e m, e ≠ CloseRequested -> alive m -> alive (step e m)) /\
  (forall m w,
      created m -> mainWindow m = Some w -> destroyed w = false ->
      step (IpcMessage "window-close") m = set_mainWindow (Some (BW.hide w)) m).
Proof.
  split; [ | exact window_close_message ].
  assert (He : forall x s, alive s -> alive (add_effect x s)) by still_alive.
  assert (Hp : forall b s, alive s -> alive (set_defaultPrevented b s)) by still_alive.
  assert (Hg : forall f w s, gentle f -> alive s -> mainWindow s = Some w ->
                             destroyed w = false ->
                             alive (set_mainWindow (Some (f w)) s)).
  { intros f w s Hf _ _ Hd. apply alive_set_window. by rewrite (proj1 (Hf w)). }
  assert (Hs : forall a b w s, alive s -> mainWindow s = Some w -> destroyed w = false ->
                               alive (set_mainWindow
                                        (Some (BW.setSize (Z.max a 800) (Z.max b 600) w)) s))
    by still_alive.
  intros e m Hne. revert m. change (Keeps alive (dispatch e)).
  destruct e; try congruence; dispatch_keeps He Hp Hg Hs still_alive.
Qed.

Lemma only_a_close_request_destroys_witness :
  IpcMessage "window-close" ≠ CloseRequested /\
  alive sample_quitting /\
  alive (step (IpcMessage "window-close") sample_quitting).
Proof.
  assert (Ha : alive sample_quitting) by (exists sample_window; split; reflexivity).
  split; [ discriminate | ]. split; [ exact Ha | ].
  apply (proj1 only_a_close_request_destroys (IpcMessage "window-close") sample_quitting);
    [ discriminate | exact Ha ].
Defined.

End WindowManager.
